(** * NEXUS worker: the polling / dispatch / report loop of [workers/main.py]

    A shallow embedding of [NexusWorker] and of the Python values it
    handles, followed by the properties of its loop.

    The worker talks to three outside parties: the control plane (one GET
    for the pending tasks, one POST per result), the upstream services the
    handlers call, and the clock.  They are gathered in a [world]: each of
    its oracles answers the request issued at a given logical time, and the
    worker's logical time advances by one at every such request.  The
    worker's own effects are collected in a trace of [event]s. *)

From Stdlib Require Import ZArith String List PrimFloat SpecFloat FloatOps.
From stdpp Require Import base option list gmap strings.

#[local] Set Warnings "-register-all".
#[local] Open Scope string_scope.
#[local] Open Scope list_scope.

(** ** Python values

    [resp.json()] yields [None], booleans, integers, floats, strings, lists
    and dictionaries with string keys. *)

Inductive json : Type :=
| JNull
| JBool (b : bool)
| JInt (z : Z)
| JFloat (f : float)
| JStr (s : string)
| JArr (l : list json)
| JObj (m : gmap string json).

(** Exceptions are instances of Python's [Exception], the class every
    [except Exception] clause of the worker catches. *)
Record exn : Type := Exn { exn_class : string; exn_msg : string }.

Definition py_type_name (v : json) : string :=
  match v with
  | JNull => "NoneType"
  | JBool _ => "bool"
  | JInt _ => "int"
  | JFloat _ => "float"
  | JStr _ => "str"
  | JArr _ => "list"
  | JObj _ => "dict"
  end.

Definition AttributeError (v : json) (attr : string) : exn :=
  Exn "AttributeError"
      ("'" +:+ py_type_name v +:+ "' object has no attribute '" +:+ attr +:+ "'").

Definition TypeError_unhashable (v : json) : exn :=
  Exn "TypeError" ("unhashable type: '" +:+ py_type_name v +:+ "'").

Definition TypeError_not_iterable (v : json) : exn :=
  Exn "TypeError" ("'" +:+ py_type_name v +:+ "' object is not iterable").

(** [bool(v)] *)
Definition truthy (v : json) : bool :=
  match v with
  | JNull => false
  | JBool b => b
  | JInt z => negb (z =? 0)%Z
  | JFloat f => negb (PrimFloat.eqb f 0%float)
  | JStr s => negb (String.eqb s "")
  | JArr l => match l with [] => false | _ :: _ => true end
  | JObj m => negb (bool_decide (m = ∅))
  end.

(** [a or b] *)
Definition py_or (a b : json) : json := if truthy a then a else b.

(** Lists and dictionaries are the unhashable values. *)
Definition hashable (v : json) : bool :=
  match v with
  | JArr _ | JObj _ => false
  | _ => true
  end.

(** [v.get(key, dflt)]: only a dictionary has the method. *)
Definition py_get (v : json) (key : string) (dflt : json) : exn + json :=
  match v with
  | JObj m => inr (default dflt (m !! key))
  | _ => inl (AttributeError v "get")
  end.

Definition chars (s : string) : list json :=
  (fun c => JStr (String c EmptyString)) <$> list_ascii_of_string s.

(** The items a [for] loop over [v] visits.  A string yields its
    characters and a dictionary its keys; in both cases every item is a
    string, which is all the worker can observe of them. *)
Definition py_iter (v : json) : exn + list json :=
  match v with
  | JArr l => inr l
  | JStr s => inr (chars s)
  | JObj m => inr (JStr <$> (map_to_list m).*1)
  | _ => inl (TypeError_not_iterable v)
  end.

(** ** Effects *)

Inductive level : Type := DEBUG | INFO | WARNING | ERROR.

Inductive logarg : Type :=
| ArgVal (v : json)
| ArgExn (e : exn)
| ArgInt (n : Z).

(** An f-string before rendering: its literal segments and the values it
    interpolates. *)
Inductive fpart : Type :=
| Lit (s : string)
| Interp (v : json).

Definition fstring : Type := list fpart.

(** The text of an f-string all of whose interpolated values are strings
    ([str(s)] is [s] itself). *)
Fixpoint render (f : fstring) : option string :=
  match f with
  | [] => Some ""
  | Lit s :: f' => String.append s <$> render f'
  | Interp (JStr s) :: f' => String.append s <$> render f'
  | Interp _ :: _ => None
  end.

(** The bound methods stored in [task_handlers]. *)
Inductive handler : Type :=
| H_fetch_hackernews
| H_fetch_crypto_prices
| H_send_telegram
| H_health_ping.

(** What the worker does, as seen from outside: a log record (format and
    arguments, as [logging] receives them), a GET or a POST sent to the
    control plane, the invocation of a handler on a task, a sleep.  The
    invocation stands for the whole run of the handler: its upstream
    traffic and its own log record are the handler's business. *)
Inductive event : Type :=
| EvLog (lvl : level) (fmt : string) (args : list logarg)
| EvGet (url : fstring)
| EvPost (url : fstring) (body : gmap string json)
| EvInvoke (h : handler) (task : json)
| EvSleep (seconds : Z).

Record response : Type := Response {
  status_code : Z;
  resp_json : exn + json        (* what [resp.json()] does *)
}.

Record world : Type := World {
  httpx : bool;                 (* whether [import httpx] succeeded *)
  NEXUS_API : string;
  TELEGRAM_BOT_TOKEN : string;
  TELEGRAM_CHAT_ID : string;
  WORKER_INTERVAL : Z;
  client_get : nat -> exn + response;
  client_post : nat -> exn + response;
  (* the network part of a handler, with everything it does upstream *)
  upstream : handler -> json -> nat -> exn + gmap string json;
  utcnow_isoformat : nat -> string;
  (* whether [stop()] is run by another coroutine during the sleep *)
  stop_requested : nat -> bool
}.

(** ** The worker object and the state of a run *)

Record NexusWorker : Type := Worker {
  running : bool;
  task_handlers : gmap string handler
}.

Record state : Type := State {
  self : NexusWorker;
  clock : nat                   (* logical time: requests issued so far *)
}.

(** [NexusWorker.__init__] *)
Definition init : NexusWorker :=
  {| running := false;
     task_handlers :=
       list_to_map [("fetch_hn", H_fetch_hackernews);
                    ("fetch_crypto", H_fetch_crypto_prices);
                    ("send_telegram", H_send_telegram);
                    ("health_ping", H_health_ping)] |}.

(** ** A monad for state, exceptions and the trace *)

Inductive outcome (A : Type) : Type :=
| Ret (a : A)
| Raise (e : exn).
Arguments Ret {A} a.
Arguments Raise {A} e.

Definition M (A : Type) : Type := state -> outcome A * state * list event.

Definition ret {A} (a : A) : M A := fun s => (Ret a, s, []).

Definition raise {A} (e : exn) : M A := fun s => (Raise e, s, []).

Definition bind {A B} (m : M A) (k : A -> M B) : M B :=
  fun s =>
    match m s with
    | (Ret a, s1, t1) => let '(r, s2, t2) := k a s1 in (r, s2, t1 ++ t2)
    | (Raise e, s1, t1) => (Raise e, s1, t1)
    end.

(** [try: m  except Exception as e: h e] *)
Definition try_except {A} (m : M A) (h : exn -> M A) : M A :=
  fun s =>
    match m s with
    | (Ret a, s1, t1) => (Ret a, s1, t1)
    | (Raise e, s1, t1) => let '(r, s2, t2) := h e s1 in (r, s2, t1 ++ t2)
    end.

Definition emit (e : event) : M unit := fun s => (Ret tt, s, [e]).

Definition lift {A} (r : exn + A) : M A :=
  match r with
  | inl e => raise e
  | inr a => ret a
  end.

Definition get_state : M state := fun s => (Ret s, s, []).

(** Issue a request: read the logical time and advance it. *)
Definition tick : M nat :=
  fun s => (Ret (clock s), {| self := self s; clock := S (clock s) |}, []).

Definition set_running (b : bool) : M unit :=
  fun s =>
    (Ret tt,
     {| self := {| running := b; task_handlers := task_handlers (self s) |};
        clock := clock s |},
     []).

Declare Scope worker_scope.
Delimit Scope worker_scope with worker.
Notation "x <- c1 ;; c2" := (bind c1 (fun x => c2))
  (at level 100, c1 at next level, right associativity) : worker_scope.
Notation "c1 ;; c2" := (bind c1 (fun _ => c2))
  (at level 100, right associativity) : worker_scope.
#[local] Open Scope worker_scope.

Definition log (lvl : level) (fmt : string) (args : list logarg) : M unit :=
  emit (EvLog lvl fmt args).

Fixpoint for_each {A} (f : A -> M unit) (l : list A) : M unit :=
  match l with
  | [] => ret tt
  | x :: l' => f x ;; for_each f l'
  end.

(** The results of a run. *)
Definition result_of {A} (r : outcome A * state * list event) : outcome A := r.1.1.
Definition state_of {A} (r : outcome A * state * list event) : state := r.1.2.
Definition trace_of {A} (r : outcome A * state * list event) : list event := r.2.

(** How an observation of the loop ends: the [while] was left, or the
    cycles observed are used up and the loop is still going. *)
Inductive loop_end : Type := LoopExited | FuelExhausted.

Section Worker.

Variable w : world.

(** [f"{NEXUS_API}..."] *)
Definition api (path : list fpart) : fstring := Interp (JStr (NEXUS_API w)) :: path.

(** [await client.get(url)] in a client of its own. *)
Definition http_get (url : fstring) : M response :=
  c <- tick ;;
  emit (EvGet url) ;;
  lift (client_get w c).

(** [await client.post(url, json=body)] in a client of its own. *)
Definition http_post (url : fstring) (body : gmap string json) : M response :=
  c <- tick ;;
  emit (EvPost url body) ;;
  lift (client_post w c).

(** [NexusWorker.report_result] *)
Definition report_result (task_id : json) (result : gmap string json) : M unit :=
  if negb (httpx w) || negb (truthy task_id) then ret tt
  else
    try_except
      (http_post (api [Lit "/api/tasks/"; Interp task_id; Lit "/result"]) result ;;
       ret tt)
      (fun _ => ret tt).

(** The part of a handler that talks to its upstream service, answered
    as a whole by [upstream].  The requests the handler sends there are
    not events of this model: its traces show the traffic with the control
    plane only.  The handlers' own requests are spelled out in "The
    handlers in detail", and a run that shows them is [start_over]. *)
Definition call_upstream (h : handler) (task : json) : M (gmap string json) :=
  c <- tick ;;
  lift (upstream w h task c).

Definition httpx_not_available : gmap string json :=
  {[ "error" := JStr "httpx not available" ]}.

(** [NexusWorker.fetch_hackernews]: the guard on [httpx], then the requests
    to the news service and the filtering of the stories, which are the
    handler's upstream part. *)
Definition fetch_hackernews (task : json) : M (gmap string json) :=
  if negb (httpx w) then ret httpx_not_available
  else call_upstream H_fetch_hackernews task.

(** [NexusWorker.fetch_crypto_prices] *)
Definition fetch_crypto_prices (task : json) : M (gmap string json) :=
  if negb (httpx w) then ret httpx_not_available
  else call_upstream H_fetch_crypto_prices task.

(** [NexusWorker.send_telegram]: the guards on [httpx] and on the
    credentials, then the request to the messaging service. *)
Definition send_telegram (task : json) : M (gmap string json) :=
  if negb (httpx w) then ret httpx_not_available
  else
    token <- lift (py_get task "token" JNull) ;;
    chat_id <- lift (py_get task "chat_id" JNull) ;;
    _ <- lift (py_get task "text" (JStr "")) ;;
    if negb (truthy (py_or token (JStr (TELEGRAM_BOT_TOKEN w))))
       || negb (truthy (py_or chat_id (JStr (TELEGRAM_CHAT_ID w))))
    then ret {[ "error" := JStr "TELEGRAM_BOT_TOKEN and TELEGRAM_CHAT_ID required" ]}
    else call_upstream H_send_telegram task.

(** [NexusWorker.health_ping] *)
Definition health_ping (task : json) : M (gmap string json) :=
  s <- get_state ;;
  ret (list_to_map [("status", JStr "ok");
                    ("worker", JStr "nexus-python");
                    ("ts", JStr (utcnow_isoformat w (clock s)))]).

(** [await handler(task)] for a bound method taken from the registry. *)
Definition call_handler (h : handler) (task : json) : M (gmap string json) :=
  emit (EvInvoke h task) ;;
  match h with
  | H_fetch_hackernews => fetch_hackernews task
  | H_fetch_crypto_prices => fetch_crypto_prices task
  | H_send_telegram => send_telegram task
  | H_health_ping => health_ping task
  end.

(** [self.task_handlers.get(key)]: the key is hashed first; only a string
    can be equal to one of the registry's keys. *)
Definition task_handlers_get (key : json) : M (option handler) :=
  s <- get_state ;;
  if hashable key then
    match key with
    | JStr k => ret (task_handlers (self s) !! k)
    | _ => ret None
    end
  else raise (TypeError_unhashable key).

(** [NexusWorker.execute_task] *)
Definition execute_task (task : json) : M unit :=
  task_type <- lift (py_get task "type" (JStr "")) ;;
  h <- task_handlers_get task_type ;;
  match h with
  | Some handler =>
      log INFO "Executing task: %s" [ArgVal task_type] ;;
      try_except
        (result <- call_handler handler task ;;
         task_id <- lift (py_get task "id" JNull) ;;
         report_result task_id result)
        (fun e => log ERROR "Task %s failed: %s" [ArgVal task_type; ArgExn e])
  | None => log WARNING "Unknown task type: %s" [ArgVal task_type]
  end.

(** [NexusWorker.poll_and_execute] *)
Definition poll_and_execute : M unit :=
  if negb (httpx w) then
    log WARNING "httpx not installed — skipping task poll" []
  else
    try_except
      (resp <- http_get (api [Lit "/api/tasks/pending"]) ;;
       if (status_code resp =? 200)%Z then
         body <- lift (resp_json resp) ;;
         tasks <- lift (py_get body "tasks" (JArr [])) ;;
         items <- lift (py_iter tasks) ;;
         for_each execute_task items
       else ret tt)
      (fun e => log DEBUG "Daemon not reachable: %s" [ArgExn e]).

(** [NexusWorker.stop] *)
Definition stop : M unit :=
  set_running false ;;
  log INFO "NEXUS Worker stopped" [].

(** [await asyncio.sleep(seconds)].  The worker reads [running] only at
    the head of its loop, so the point of the cycle at which another
    coroutine runs [stop()] does not matter; it is delivered here. *)
Definition sleep (seconds : Z) : M unit :=
  c <- tick ;;
  emit (EvSleep seconds) ;;
  if stop_requested w c then stop else ret tt.

(** The [while self.running] loop of [start], over the cycle it runs;
    [fuel] bounds the number of cycles observed. *)
Fixpoint worker_loop (cycle : M unit) (fuel : nat) : M loop_end :=
  s <- get_state ;;
  if running (self s) then
    match fuel with
    | O => ret FuelExhausted
    | S fuel' =>
        try_except cycle
          (fun e => log ERROR "Worker loop error: %s" [ArgExn e]) ;;
        sleep (WORKER_INTERVAL w) ;;
        worker_loop cycle fuel'
    end
  else ret LoopExited.

(** The body of [start], over the method it calls in every cycle. *)
Definition start_with (cycle : M unit) (fuel : nat) : M loop_end :=
  set_running true ;;
  log INFO "NEXUS Worker started — polling every %ds" [ArgInt (WORKER_INTERVAL w)] ;;
  worker_loop cycle fuel.

(** [NexusWorker.start] *)
Definition start (fuel : nat) : M loop_end := start_with poll_and_execute fuel.

End Worker.

(** ** Reading a run *)

(** The requests posted to the control plane's result endpoint. *)
Definition posts (t : list event) : list (fstring * gmap string json) :=
  omap (fun e => match e with EvPost url body => Some (url, body) | _ => None end) t.

(** The handlers invoked, each with the task it was given. *)
Definition invocations (t : list event) : list (handler * json) :=
  omap (fun e => match e with EvInvoke h task => Some (h, task) | _ => None end) t.

Definition severity (l : level) : nat :=
  match l with
  | DEBUG => 10
  | INFO => 20
  | WARNING => 30
  | ERROR => 40
  end.

(** The records logged above the given level, without their arguments. *)
Definition logs_above (l : level) (t : list event) : list (level * string) :=
  omap (fun e =>
          match e with
          | EvLog lvl fmt _ =>
              if (severity l <? severity lvl)%nat then Some (lvl, fmt) else None
          | _ => None
          end) t.

(** The state once one more request has been issued. *)
Definition later (s : state) : state := {| self := self s; clock := S (clock s) |}.

(** The state once [stop()] has run. *)
Definition stopped (s : state) : state :=
  {| self := {| running := false; task_handlers := task_handlers (self s) |};
     clock := clock s |}.

(** [f"{NEXUS_API}/api/tasks/pending"] *)
Definition pending_url (w : world) : fstring := api w [Lit "/api/tasks/pending"].

(** [f"{NEXUS_API}/api/tasks/{task_id}/result"] *)
Definition result_url (w : world) (task_id : json) : fstring :=
  api w [Lit "/api/tasks/"; Interp task_id; Lit "/result"].

(** [task.get("type", "")] on a dictionary. *)
Definition task_type_of (m : gmap string json) : json := default (JStr "") (m !! "type").

(** A task as the control plane is meant to send it: a dictionary whose
    ["type"], when present, can be used as a dictionary key (any string
    can). *)
Definition is_task (v : json) : bool :=
  match v with
  | JObj m => hashable (task_type_of m)
  | _ => false
  end.

(** The dictionary lookup of [task_handlers_get], once the key is hashed. *)
Definition registry_get (reg : gmap string handler) (key : json) : option handler :=
  match key with
  | JStr k => reg !! k
  | _ => None
  end.

(** The task has a handler in the registry. *)
Definition known (reg : gmap string handler) (v : json) : bool :=
  match v with
  | JObj m => bool_decide (is_Some (registry_get reg (task_type_of m)))
  | _ => false
  end.

(** The operation leaves the field [f] of the worker as it found it. *)
Definition keeps {A X} (f : NexusWorker -> X) (m : M A) : Prop :=
  forall s, f (self (state_of (m s))) = f (self s).

(** The operation returns from every state: no exception reaches its
    caller. *)
Definition no_raise {A} (m : M A) : Prop :=
  forall s, exists a, result_of (m s) = Ret a.

(** The cycle under the [try] of [start]. *)
Definition guarded (cycle : M unit) : M unit :=
  try_except cycle (fun e => log ERROR "Worker loop error: %s" [ArgExn e]).

(** Sequential processing, as the specification words it: the tasks are
    executed one after the other in the order given, each from the state
    its predecessor left, and their traces follow one another. *)
Fixpoint in_order (w : world) (tasks : list json) (s : state) : state * list event :=
  match tasks with
  | [] => (s, [])
  | task :: rest =>
      let r := execute_task w task s in
      let '(s', t) := in_order w rest (state_of r) in
      (s', trace_of r ++ t)
  end.

(** The fetch failed: the request raised (unreachable, timeout) or the
    response's status is not 200. *)
Definition fetch_failed (r : exn + response) : bool :=
  match r with
  | inl _ => true
  | inr resp => negb (status_code resp =? 200)%Z
  end.

(** What a failed fetch leaves in the log. *)
Definition fetch_log (r : exn + response) : list event :=
  match r with
  | inl e => [EvLog DEBUG "Daemon not reachable: %s" [ArgExn e]]
  | inr _ => []
  end.

(** ** Worlds that differ in one party *)

Definition with_client_get (w : world) (get : nat -> exn + response) : world :=
  {| httpx := httpx w;
     NEXUS_API := NEXUS_API w;
     TELEGRAM_BOT_TOKEN := TELEGRAM_BOT_TOKEN w;
     TELEGRAM_CHAT_ID := TELEGRAM_CHAT_ID w;
     WORKER_INTERVAL := WORKER_INTERVAL w;
     client_get := get;
     client_post := client_post w;
     upstream := upstream w;
     utcnow_isoformat := utcnow_isoformat w;
     stop_requested := stop_requested w |}.

Definition with_client_post (w : world) (post : nat -> exn + response) : world :=
  {| httpx := httpx w;
     NEXUS_API := NEXUS_API w;
     TELEGRAM_BOT_TOKEN := TELEGRAM_BOT_TOKEN w;
     TELEGRAM_CHAT_ID := TELEGRAM_CHAT_ID w;
     WORKER_INTERVAL := WORKER_INTERVAL w;
     client_get := client_get w;
     client_post := post;
     upstream := upstream w;
     utcnow_isoformat := utcnow_isoformat w;
     stop_requested := stop_requested w |}.

Definition with_upstream (w : world)
    (up : handler -> json -> nat -> exn + gmap string json) : world :=
  {| httpx := httpx w;
     NEXUS_API := NEXUS_API w;
     TELEGRAM_BOT_TOKEN := TELEGRAM_BOT_TOKEN w;
     TELEGRAM_CHAT_ID := TELEGRAM_CHAT_ID w;
     WORKER_INTERVAL := WORKER_INTERVAL w;
     client_get := client_get w;
     client_post := client_post w;
     upstream := up;
     utcnow_isoformat := utcnow_isoformat w;
     stop_requested := stop_requested w |}.

(** ** Concrete worlds, states and tasks *)

Definition no_tasks : response :=
  {| status_code := 200; resp_json := inr (JObj {[ "tasks" := JArr [] ]}) |}.

Definition accepted : response := {| status_code := 200; resp_json := inr JNull |}.

Definition ReadTimeout : exn := Exn "ReadTimeout" "timed out".

Definition ConnectError : exn := Exn "ConnectError" "All connection attempts failed".

(** [httpx] installed, the configuration's defaults, an idle control plane
    that accepts every result, upstream services that answer with an empty
    payload, and nobody stopping the worker. *)
Definition idle_world : world :=
  {| httpx := true;
     NEXUS_API := "http://localhost:7700";
     TELEGRAM_BOT_TOKEN := "";
     TELEGRAM_CHAT_ID := "";
     WORKER_INTERVAL := 30;
     client_get := fun _ => inr no_tasks;
     client_post := fun _ => inr accepted;
     upstream := fun _ _ _ => inr ∅;
     utcnow_isoformat := fun _ => "2024-01-01T00:00:00";
     stop_requested := fun _ => false |}.

(** A control plane that answers every fetch with the given tasks. *)
Definition serving (tasks : list json) : world :=
  with_client_get idle_world
    (fun _ => inr {| status_code := 200;
                     resp_json := inr (JObj {[ "tasks" := JArr tasks ]}) |}).

(** A control plane that answers every fetch with status 503. *)
Definition unavailable : world :=
  with_client_get idle_world
    (fun _ => inr {| status_code := 503; resp_json := inr JNull |}).

(** A result endpoint that refuses every connection. *)
Definition refusing (w : world) : world :=
  with_client_post w (fun _ => inl ConnectError).

(** Upstream services that time out. *)
Definition upstream_down : world :=
  with_upstream idle_world (fun _ _ _ => inl ReadTimeout).

(** A freshly constructed worker, before any request. *)
Definition fresh : state := {| self := init; clock := 0 |}.

(** A worker whose loop has been entered. *)
Definition started : state :=
  {| self := {| running := true; task_handlers := task_handlers init |}; clock := 0 |}.

(** [{"id": id, "type": type}] *)
Definition task (id type : string) : json :=
  JObj (list_to_map [("id", JStr id); ("type", JStr type)]).

(** A health ping to which the control plane gave no id. *)
Definition anonymous_ping : gmap string json := {[ "type" := JStr "health_ping" ]}.


(** ** More readings of a run *)

(** The URLs fetched. *)
Definition gets (t : list event) : list fstring :=
  omap (fun e => match e with EvGet url => Some url | _ => None end) t.

(** An event that involves neither the network nor a handler. *)
Definition offline (e : event) : Prop :=
  match e with
  | EvLog _ _ _ | EvSleep _ => True
  | _ => False
  end.

(** [resp.json().get("tasks", [])] and the start of the [for] loop over
    it: the items the loop will visit, or the exception raised before the
    first of them. *)
Definition pending_items (resp : response) : exn + list json :=
  match resp_json resp with
  | inl e => inl e
  | inr body =>
      match py_get body "tasks" (JArr []) with
      | inl e => inl e
      | inr tasks => py_iter tasks
      end
  end.

(** The exception [execute_task] raises on an item that is not a task. *)
Definition not_a_task_error (v : json) : exn :=
  match v with
  | JObj m => TypeError_unhashable (task_type_of m)
  | _ => AttributeError v "get"
  end.

(** [main], observed for [fuel] cycles: a worker is constructed and
    started.  The [KeyboardInterrupt] that [main] catches is not an
    [Exception] and is not part of a run. *)
Definition main (w : world) (fuel : nat) : outcome loop_end * state * list event :=
  start w fuel {| self := init; clock := 0 |}.

(** The sleeps taken. *)
Definition sleeps (t : list event) : list Z :=
  omap (fun e => match e with EvSleep seconds => Some seconds | _ => None end) t.

(** A property of traces that holds of the empty trace and of the
    concatenation of two traces that have it. *)
Class Additive (Q : list event -> Prop) : Prop := {
  additive_nil : Q [];
  additive_app : forall t1 t2, Q t1 -> Q t2 -> Q (t1 ++ t2)
}.

(** The trace of the operation, from every state, satisfies [Q]. *)
Definition trace_in {A} (Q : list event -> Prop) (m : M A) : Prop :=
  forall s, Q (trace_of (m s)).

(** No more results posted than handlers invoked. *)
Definition balanced (t : list event) : Prop :=
  length (posts t) <= length (invocations t).

(** [w] with or without [httpx]. *)
Definition with_httpx (w : world) (installed : bool) : world :=
  {| httpx := installed;
     NEXUS_API := NEXUS_API w;
     TELEGRAM_BOT_TOKEN := TELEGRAM_BOT_TOKEN w;
     TELEGRAM_CHAT_ID := TELEGRAM_CHAT_ID w;
     WORKER_INTERVAL := WORKER_INTERVAL w;
     client_get := client_get w;
     client_post := client_post w;
     upstream := upstream w;
     utcnow_isoformat := utcnow_isoformat w;
     stop_requested := stop_requested w |}.

(** [w] with a stop request during the sleep taken at logical time [c],
    and at no other time. *)
Definition stopping_at (w : world) (c : nat) : world :=
  {| httpx := httpx w;
     NEXUS_API := NEXUS_API w;
     TELEGRAM_BOT_TOKEN := TELEGRAM_BOT_TOKEN w;
     TELEGRAM_CHAT_ID := TELEGRAM_CHAT_ID w;
     WORKER_INTERVAL := WORKER_INTERVAL w;
     client_get := client_get w;
     client_post := client_post w;
     upstream := upstream w;
     utcnow_isoformat := utcnow_isoformat w;
     stop_requested := fun c' => Nat.eqb c' c |}.

(** Neither a fetch nor a sleep. *)
Definition fetchless (t : list event) : Prop := gets t = [] /\ sleeps t = [].

(** A control plane that answers every fetch with the given response. *)
Definition answering (resp : response) : world :=
  with_client_get idle_world (fun _ => inr resp).

(** A 200 response with the given JSON body. *)
Definition ok_json (body : json) : response :=
  {| status_code := 200; resp_json := inr body |}.

(** A message task that brings no credentials. *)
Definition bare_message : gmap string json :=
  list_to_map [("id", JStr "m1"); ("type", JStr "send_telegram"); ("text", JStr "hello")].

(** ** The handlers in detail

    The network part of a handler, which [upstream] answers as a whole, is
    spelled out here request by request.  In these runs an [EvGet] or an
    [EvPost] is a request to the handler's service. *)

(** The services the handlers call: what a GET or a POST sent at a given
    logical time returns. *)
Record internet : Type := Internet {
  net_get : nat -> fstring -> exn + response;
  net_post : nat -> fstring -> gmap string json -> exn + response
}.

(** [needle in hay] for two strings. *)
Fixpoint contains (needle hay : string) : bool :=
  String.prefix needle hay
  || match hay with
     | EmptyString => false
     | String _ hay' => contains needle hay'
     end.

(** [f >= n] for a float and an integer, which Python compares exactly. *)
Definition float_ge_Z (f : float) (n : Z) : bool :=
  match Prim2SF f with
  | S754_zero _ => (0 >=? n)%Z
  | S754_infinity negative => negb negative
  | S754_nan => false
  | S754_finite negative m e =>
      let v := if negative then Z.neg m else Z.pos m in
      if (0 <=? e)%Z then (v * 2 ^ e >=? n)%Z else (v >=? n * 2 ^ (- e))%Z
  end.

(** [v >= n] for an integer [n]: numbers and booleans compare, anything
    else raises. *)
Definition py_ge (v : json) (n : Z) : exn + bool :=
  match v with
  | JInt z => inr (z >=? n)%Z
  | JBool b => inr (Z.b2z b >=? n)%Z
  | JFloat f => inr (float_ge_Z f n)
  | _ =>
      inl (Exn "TypeError"
             ("'>=' not supported between instances of '" +:+ py_type_name v
              +:+ "' and 'int'"))
  end.

(** [v.items()] needs a dictionary. *)
Definition py_items (items_of : gmap string json -> list (string * json)) (v : json)
    : exn + list (string * json) :=
  match v with
  | JObj m => inr (items_of m)
  | _ => inl (AttributeError v "items")
  end.

(** A loop that carries a local variable from one item to the next. *)
Fixpoint for_fold {A B} (f : A -> B -> M B) (l : list A) (acc : B) : M B :=
  match l with
  | [] => ret acc
  | x :: l' => acc' <- f x acc ;; for_fold f l' acc'
  end.

Section Handlers.

Variable w : world.
Variable net : internet.

(** What Python's strings and numbers do, as far as the handlers use
    them: [s.lower()], the characters of [s] in order, the exception
    [v[:n]] raises on a value that has no slices, and [round(f, 2)] on a
    float. *)
Variable str_lower : string -> string.
Variable str_chars : string -> list string.
Variable slice_error : json -> exn.
Variable round2 : float -> float.

(** The items of a dictionary in the order Python iterates over them,
    which is the order of the parsed document. *)
Variable items_of : gmap string json -> list (string * json).

(** [await client.get(url)] to a service. *)
Definition upstream_get (url : fstring) : M response :=
  c <- tick ;;
  emit (EvGet url) ;;
  lift (net_get net c url).

(** [await client.post(url, json=body)] to a service. *)
Definition upstream_post (url : fstring) (body : gmap string json) : M response :=
  c <- tick ;;
  emit (EvPost url body) ;;
  lift (net_post net c url body).

Definition credentials_required : gmap string json :=
  {[ "error" := JStr "TELEGRAM_BOT_TOKEN and TELEGRAM_CHAT_ID required" ]}.

(** [task.get("token") or TELEGRAM_BOT_TOKEN] *)
Definition telegram_token (task : gmap string json) : json :=
  py_or (default JNull (task !! "token")) (JStr (TELEGRAM_BOT_TOKEN w)).

(** [task.get("chat_id") or TELEGRAM_CHAT_ID] *)
Definition telegram_chat_id (task : gmap string json) : json :=
  py_or (default JNull (task !! "chat_id")) (JStr (TELEGRAM_CHAT_ID w)).

(** The body of the message request. *)
Definition telegram_message (chat_id text : json) : gmap string json :=
  list_to_map [("chat_id", chat_id); ("text", text); ("parse_mode", JStr "Markdown")].

(** [f"https://api.telegram.org/bot{token}/sendMessage"] *)
Definition telegram_url (token : json) : fstring :=
  [Lit "https://api.telegram.org/bot"; Interp token; Lit "/sendMessage"].

(** [NexusWorker.send_telegram], request and all. *)
Definition send_telegram_over (task : json) : M (gmap string json) :=
  if negb (httpx w) then ret httpx_not_available
  else
    token0 <- lift (py_get task "token" JNull) ;;
    chat0 <- lift (py_get task "chat_id" JNull) ;;
    text <- lift (py_get task "text" (JStr "")) ;;
    let token := py_or token0 (JStr (TELEGRAM_BOT_TOKEN w)) in
    let chat_id := py_or chat0 (JStr (TELEGRAM_CHAT_ID w)) in
    if negb (truthy token) || negb (truthy chat_id)
    then ret credentials_required
    else
      resp <- upstream_post (telegram_url token) (telegram_message chat_id text) ;;
      body <- lift (resp_json resp) ;;
      ok <- lift (py_get body "ok" (JBool false)) ;;
      ret {[ "ok" := ok ]}.

(** [round(v, 2)]: an integer is its own rounding, a boolean rounds as the
    integer it is, and a value that is no number raises. *)
Definition py_round2 (v : json) : exn + json :=
  match v with
  | JInt z => inr (JInt z)
  | JBool b => inr (JInt (Z.b2z b))
  | JFloat f => inr (JFloat (round2 f))
  | _ =>
      inl (Exn "TypeError"
             ("type " +:+ py_type_name v +:+ " doesn't define __round__ method"))
  end.

(** [{"usd": info.get("usd"), "change_24h": round(info.get("usd_24h_change", 0), 2)}] *)
Definition price_entry (info : json) : exn + gmap string json :=
  match py_get info "usd" JNull with
  | inl e => inl e
  | inr usd =>
      match py_get info "usd_24h_change" (JInt 0) with
      | inl e => inl e
      | inr change =>
          match py_round2 change with
          | inl e => inl e
          | inr rounded => inr (list_to_map [("usd", usd); ("change_24h", rounded)])
          end
      end
  end.

(** The body of [for coin, info in data.items()]: [prices[coin] = ...]. *)
Definition add_price (item : string * json) (prices : gmap string json)
    : M (gmap string json) :=
  entry <- lift (price_entry item.2) ;;
  ret (<[item.1 := JObj entry]> prices).

(** The URL of the price request, for the coins asked. *)
Definition prices_url (coins : json) : fstring :=
  [Lit "https://api.coingecko.com/api/v3/simple/price";
   Lit "?ids="; Interp coins; Lit "&vs_currencies=usd&include_24hr_change=true"].

(** [NexusWorker.fetch_crypto_prices], request and all. *)
Definition fetch_crypto_prices_over (task : json) : M (gmap string json) :=
  if negb (httpx w) then ret httpx_not_available
  else
    coins <- lift (py_get task "coins" (JStr "bitcoin,ethereum,solana")) ;;
    resp <- upstream_get (prices_url coins) ;;
    data <- lift (resp_json resp) ;;
    items <- lift (py_items items_of data) ;;
    prices <- for_fold add_price items ∅ ;;
    s <- get_state ;;
    ret (list_to_map [("prices", JObj prices);
                      ("fetched_at", JStr (utcnow_isoformat w (clock s)))]).

(** [v.lower()] needs a string. *)
Definition py_lower (v : json) : exn + string :=
  match v with
  | JStr s => inr (str_lower s)
  | _ => inl (AttributeError v "lower")
  end.

(** The values [v[:n]] holds when [v] has slices: the first items of a
    list, the first characters of a string. *)
Definition py_head (n : nat) (v : json) : exn + list json :=
  match v with
  | JArr l => inr (take n l)
  | JStr s => inr (JStr <$> take n (str_chars s))
  | _ => inl (slice_error v)
  end.

(** The values a [for] loop over the keywords visits. *)
Definition keyword_items (v : json) : exn + list json :=
  match v with
  | JArr l => inr l
  | JStr s => inr (JStr <$> str_chars s)
  | JObj m => inr (JStr <$> (map_to_list m).*1)
  | _ => inl (TypeError_not_iterable v)
  end.

(** [any(k.lower() in title for k in keywords)]: the keywords are tried in
    order up to the first that matches. *)
Fixpoint any_keyword (keywords : list json) (title : string) : exn + bool :=
  match keywords with
  | [] => inr false
  | k :: rest =>
      match py_lower k with
      | inl e => inl e
      | inr kl => if contains kl title then inr true else any_keyword rest title
      end
  end.

(** The two tests of the loop body: whether the story is to be kept. *)
Definition story_wanted (keywords : json) (min_score : Z) (story : json) : exn + bool :=
  if negb (truthy story) then inr false
  else
    match py_get story "score" (JInt 0) with
    | inl e => inl e
    | inr score =>
        match py_ge score min_score with
        | inl e => inl e
        | inr false => inr false
        | inr true =>
            match py_get story "title" (JStr "") with
            | inl e => inl e
            | inr title0 =>
                match py_lower title0 with
                | inl e => inl e
                | inr title =>
                    if negb (truthy keywords) then inr true
                    else
                      match keyword_items keywords with
                      | inl e => inl e
                      | inr ks => any_keyword ks title
                      end
                end
            end
        end
    end.

(** The record appended for a story that is kept. *)
Definition story_entry (story : gmap string json) : gmap string json :=
  list_to_map [("title", default JNull (story !! "title"));
               ("score", default JNull (story !! "score"));
               ("url", default (JStr "") (story !! "url"));
               ("comments", default (JInt 0) (story !! "descendants"))].

(** [f"https://hacker-news.firebaseio.com/v0/item/{sid}.json"] *)
Definition item_url (sid : json) : fstring :=
  [Lit "https://hacker-news.firebaseio.com/v0/item/"; Interp sid; Lit ".json"].

Definition topstories_url : fstring :=
  [Lit "https://hacker-news.firebaseio.com/v0/topstories.json"].

(** The body of [for sid in story_ids[:30]], with its [try] and its
    [except Exception: continue]. *)
Definition visit_story (keywords : json) (min_score : Z) (sid : json)
    (stories : list json) : M (list json) :=
  try_except
    (sr <- upstream_get (item_url sid) ;;
     story <- lift (resp_json sr) ;;
     wanted <- lift (story_wanted keywords min_score story) ;;
     if wanted then
       match story with
       | JObj m => ret (stories ++ [JObj (story_entry m)])
       | _ => raise (AttributeError story "get")
       end
     else ret stories)
    (fun _ => ret stories).

Definition default_keywords : json :=
  JArr [JStr "AI"; JStr "startup"; JStr "automation"; JStr "n8n"].

(** [NexusWorker.fetch_hackernews], request by request, as the worker
    calls it: [min_score] and [keywords] are left to their defaults. *)
Definition fetch_hackernews_over (task : json) : M (gmap string json) :=
  if negb (httpx w) then ret httpx_not_available
  else
    keywords <- lift (py_get task "keywords" default_keywords) ;;
    resp <- upstream_get topstories_url ;;
    top <- lift (resp_json resp) ;;
    story_ids <- lift (py_head 50 top) ;;
    stories <- for_fold (visit_story keywords 200) (take 30 story_ids) [] ;;
    log INFO "HN: found %d matching stories" [ArgInt (Z.of_nat (length stories))] ;;
    s <- get_state ;;
    ret (list_to_map [("stories", JArr stories);
                      ("fetched_at", JStr (utcnow_isoformat w (clock s)))]).

End Handlers.

(** ** The run with the handlers in detail

    The worker as above, with every handler run request by request: the
    trace of such a run holds the requests to the control plane and the
    requests of the handlers to their services, in the order in which they
    are sent. *)

Section Run.

Variable w : world.
Variable net : internet.
Variable str_lower : string -> string.
Variable str_chars : string -> list string.
Variable slice_error : json -> exn.
Variable round2 : float -> float.
Variable items_of : gmap string json -> list (string * json).

(** [await handler(task)] for a bound method taken from the registry. *)
Definition call_handler_over (h : handler) (task : json) : M (gmap string json) :=
  emit (EvInvoke h task) ;;
  match h with
  | H_fetch_hackernews =>
      fetch_hackernews_over w net str_lower str_chars slice_error task
  | H_fetch_crypto_prices => fetch_crypto_prices_over w net round2 items_of task
  | H_send_telegram => send_telegram_over w net task
  | H_health_ping => health_ping w task
  end.

(** [NexusWorker.execute_task] *)
Definition execute_task_over (task : json) : M unit :=
  task_type <- lift (py_get task "type" (JStr "")) ;;
  h <- task_handlers_get task_type ;;
  match h with
  | Some handler =>
      log INFO "Executing task: %s" [ArgVal task_type] ;;
      try_except
        (result <- call_handler_over handler task ;;
         task_id <- lift (py_get task "id" JNull) ;;
         report_result w task_id result)
        (fun e => log ERROR "Task %s failed: %s" [ArgVal task_type; ArgExn e])
  | None => log WARNING "Unknown task type: %s" [ArgVal task_type]
  end.

(** [NexusWorker.poll_and_execute] *)
Definition poll_and_execute_over : M unit :=
  if negb (httpx w) then
    log WARNING "httpx not installed — skipping task poll" []
  else
    try_except
      (resp <- http_get w (api w [Lit "/api/tasks/pending"]) ;;
       if (status_code resp =? 200)%Z then
         body <- lift (resp_json resp) ;;
         tasks <- lift (py_get body "tasks" (JArr [])) ;;
         items <- lift (py_iter tasks) ;;
         for_each execute_task_over items
       else ret tt)
      (fun e => log DEBUG "Daemon not reachable: %s" [ArgExn e]).

(** [NexusWorker.start] *)
Definition start_over (fuel : nat) : M loop_end :=
  start_with w poll_and_execute_over fuel.

End Run.

(** Where a request of the worker can go: a GET to the pending tasks of
    the control plane, to the list of top stories, to one story or to the
    price service; a POST to the result of a task with a truthy id or to
    the messaging service, for a truthy token.  Events that are not
    requests are not restricted. *)
Definition known_endpoint (w : world) (e : event) : Prop :=
  match e with
  | EvGet url =>
      url = pending_url w
      \/ url = topstories_url
      \/ (exists sid, url = item_url sid)
      \/ (exists coins, url = prices_url coins)
  | EvPost url _ =>
      (exists task_id, truthy task_id = true /\ url = result_url w task_id)
      \/ (exists token, truthy token = true /\ url = telegram_url token)
  | EvLog _ _ _ | EvInvoke _ _ | EvSleep _ => True
  end.

(** One task for each handler of the registry; the message task brings no
    credentials of its own. *)
Definition one_of_each : list json :=
  [task "n1" "fetch_hn"; task "p1" "fetch_crypto"; JObj bare_message;
   task "h1" "health_ping"].

(** ** Concrete services *)

(** A service that answers every request with status 200 and the given
    JSON body. *)
Definition replying (body : json) : internet :=
  {| net_get := fun _ _ => inr (ok_json body);
     net_post := fun _ _ _ => inr (ok_json body) |}.

(** A service that answers every request with the given status and JSON
    body. *)
Definition replying_with (status : Z) (body : json) : internet :=
  {| net_get := fun _ _ => inr {| status_code := status; resp_json := inr body |};
     net_post := fun _ _ _ => inr {| status_code := status; resp_json := inr body |} |}.

(** [w] with the given credentials in its environment. *)
Definition with_credentials (w : world) (token chat_id : string) : world :=
  {| httpx := httpx w;
     NEXUS_API := NEXUS_API w;
     TELEGRAM_BOT_TOKEN := token;
     TELEGRAM_CHAT_ID := chat_id;
     WORKER_INTERVAL := WORKER_INTERVAL w;
     client_get := client_get w;
     client_post := client_post w;
     upstream := upstream w;
     utcnow_isoformat := utcnow_isoformat w;
     stop_requested := stop_requested w |}.

(** A message task that brings its own token. *)
Definition own_token_message : gmap string json :=
  list_to_map [("id", JStr "m2"); ("type", JStr "send_telegram");
               ("token", JStr "task-token"); ("text", JStr "hello")].

(** The value stored for a coin whose entry can be built. *)
Definition price_json (round2 : float -> float) (info : json) : json :=
  match price_entry round2 info with
  | inr entry => JObj entry
  | inl _ => JNull
  end.

(** [{"usd": None, "change_24h": 0}] *)
Definition no_price : json :=
  JObj (list_to_map [("usd", JNull); ("change_24h", JInt 0)]).

(** [task.get("coins", "bitcoin,ethereum,solana")] on a dictionary. *)
Definition coins_of (m : gmap string json) : json :=
  default (JStr "bitcoin,ethereum,solana") (m !! "coins").

(** A price task that leaves the coins to the default. *)
Definition price_task : gmap string json :=
  list_to_map [("id", JStr "p1"); ("type", JStr "fetch_crypto")].

(** The body the price service sends when it refuses a request. *)
Definition rate_limited : gmap string json :=
  {[ "status" := JObj (list_to_map [("error_code", JInt 429);
                                    ("error_message", JStr "Too Many Requests")]) ]}.

(** A price table in which one coin has no table of its own. *)
Definition one_bad_coin : gmap string json :=
  list_to_map [("bitcoin", JObj (list_to_map [("usd", JInt 60000)]));
               ("ethereum", JStr "n/a")].

(** A reply with the price of one coin. *)
Definition bitcoin_only : gmap string json :=
  {[ "bitcoin" := JObj (list_to_map [("usd", JInt 60000); ("usd_24h_change", JInt 2)]) ]}.

(** A service whose GETs raise and whose POSTs are accepted. *)
Definition unreachable : internet :=
  {| net_get := fun _ _ => inl ConnectError;
     net_post := fun _ _ _ => inr accepted |}.

(** ** The news handler, item by item *)

(** The state once [n] more requests have been issued. *)
Definition after (n : nat) (s : state) : state :=
  {| self := self s; clock := n + clock s |}.

(** What the answer to one item request adds to the stories: the record
    of the story when the answer is a JSON object that passes both tests,
    nothing otherwise. *)
Definition story_pick (str_lower : string -> string) (str_chars : string -> list string)
    (keywords : json) (min_score : Z) (answer : exn + response) : list json :=
  match answer with
  | inr sr =>
      match resp_json sr with
      | inr (JObj m) =>
          match story_wanted str_lower str_chars keywords min_score (JObj m) with
          | inr true => [JObj (story_entry m)]
          | _ => []
          end
      | _ => []
      end
  | inl _ => []
  end.

(** The stories picked from the items requested one after the other from
    logical time [c] on. *)
Fixpoint picks_from (net : internet) (str_lower : string -> string)
    (str_chars : string -> list string) (keywords : json) (min_score : Z)
    (c : nat) (ids : list json) : list json :=
  match ids with
  | [] => []
  | sid :: rest =>
      story_pick str_lower str_chars keywords min_score (net_get net c (item_url sid))
      ++ picks_from net str_lower str_chars keywords min_score (S c) rest
  end.

(** A story record whose score reaches the threshold. *)
Definition scored_at_least (min_score : Z) (story : json) : Prop :=
  exists entry score,
    story = JObj entry /\ entry !! "score" = Some score /\ py_ge score min_score = inr true.

(** [task.get("keywords", ["AI", "startup", "automation", "n8n"])] on a
    dictionary. *)
Definition keywords_of (m : gmap string json) : json :=
  default default_keywords (m !! "keywords").

(** A feed of four stories, and a service that serves it: story 1 is about
    AI and popular, story 2 is popular and off topic, story 3 is about AI
    and not popular enough, and the request for story 4 fails. *)
Definition story (title : string) (score : Z) : json :=
  JObj (list_to_map [("title", JStr title); ("score", JInt score);
                     ("url", JStr "https://example.org"); ("descendants", JInt 7)]).

Definition news_feed : internet :=
  {| net_get := fun c _ =>
       match c with
       | 0 => inr (ok_json (JArr [JInt 1; JInt 2; JInt 3; JInt 4]))
       | 1 => inr (ok_json (story "ai for all" 250))
       | 2 => inr (ok_json (story "gardening" 900))
       | 3 => inr (ok_json (story "ai again" 150))
       | _ => inl ReadTimeout
       end;
     net_post := fun _ _ _ => inr accepted |}.

(** A news task that leaves the keywords to the default, and one whose
    keywords are a number. *)
Definition news_task : gmap string json :=
  list_to_map [("id", JStr "n1"); ("type", JStr "fetch_hn")].

Definition numeric_keywords_task : gmap string json :=
  list_to_map [("id", JStr "n2"); ("type", JStr "fetch_hn"); ("keywords", JInt 5)].

(** Lower-casing of ASCII letters, for the examples. *)
Definition ascii_lower (s : string) : string :=
  string_of_list_ascii
    ((fun a => let n := Ascii.nat_of_ascii a in
               if (65 <=? n)%nat && (n <=? 90)%nat then Ascii.ascii_of_nat (n + 32) else a)
       <$> list_ascii_of_string s).

(** The characters of an ASCII string, for the examples. *)
Definition ascii_chars (s : string) : list string :=
  (fun a => String a EmptyString) <$> list_ascii_of_string s.

(** The exception of a slice that is not supported, for the examples. *)
Definition not_subscriptable (v : json) : exn :=
  Exn "TypeError" ("'" +:+ py_type_name v +:+ "' object is not subscriptable").

(** * Properties *)

(** ** Fields of the worker that an operation leaves alone *)

Section Keeps.

Context {X : Type} (f : NexusWorker -> X).

Lemma keeps_ret {A} (a : A) : keeps f (ret a).
Proof. intros s. reflexivity. Qed.

Lemma keeps_raise {A} (e : exn) : keeps f (@raise A e).
Proof. intros s. reflexivity. Qed.

Lemma keeps_emit (e : event) : keeps f (emit e).
Proof. intros s. reflexivity. Qed.

Lemma keeps_log lvl fmt args : keeps f (log lvl fmt args).
Proof. apply keeps_emit. Qed.

Lemma keeps_lift {A} (r : exn + A) : keeps f (lift r).
Proof. destruct r; intros s; reflexivity. Qed.

Lemma keeps_get_state : keeps f get_state.
Proof. intros s. reflexivity. Qed.

Lemma keeps_tick : keeps f tick.
Proof. intros s. reflexivity. Qed.

Lemma keeps_bind {A B} (m : M A) (k : A -> M B) :
  keeps f m -> (forall a, keeps f (k a)) -> keeps f (bind m k).
Proof.
  intros Hm Hk s. specialize (Hm s). unfold bind, state_of in *.
  destruct (m s) as [[[a | e] s1] t1]; simpl in *; [| assumption].
  specialize (Hk a s1). unfold state_of in Hk.
  destruct (k a s1) as [[r s2] t2]; simpl in *. congruence.
Qed.

Lemma keeps_try_except {A} (m : M A) (h : exn -> M A) :
  keeps f m -> (forall e, keeps f (h e)) -> keeps f (try_except m h).
Proof.
  intros Hm Hh s. specialize (Hm s). unfold try_except, state_of in *.
  destruct (m s) as [[[a | e] s1] t1]; simpl in *; [assumption |].
  specialize (Hh e s1). unfold state_of in Hh.
  destruct (h e s1) as [[r s2] t2]; simpl in *. congruence.
Qed.

Lemma keeps_for_each {A} (g : A -> M unit) (l : list A) :
  (forall a, keeps f (g a)) -> keeps f (for_each g l).
Proof.
  intros Hg. induction l as [| a l IH]; simpl.
  - apply keeps_ret.
  - apply keeps_bind; auto.
Qed.

End Keeps.

Create HintDb keeps.
#[local] Hint Resolve keeps_ret keeps_raise keeps_emit keeps_log keeps_lift
  keeps_get_state keeps_tick : keeps.

(** Decompose an operation along its binds, handlers and branches. *)
Ltac keeps_step :=
  match goal with
  | |- keeps _ (bind _ _) => apply keeps_bind; [| intros ?]
  | |- keeps _ (try_except _ _) => apply keeps_try_except; [| intros ?]
  | |- keeps _ (for_each _ _) => apply keeps_for_each; intros ?
  | |- keeps _ (if ?b then _ else _) => destruct b
  | |- keeps _ (match ?x with _ => _ end) => destruct x
  end.

Ltac keeps_auto := repeat keeps_step; auto with keeps.

Lemma keeps_registry_set_running b : keeps task_handlers (set_running b).
Proof. intros s. reflexivity. Qed.
#[local] Hint Resolve keeps_registry_set_running : keeps.

Section KeepsWorker.

Variable w : world.
Context {X : Type} (f : NexusWorker -> X).

Lemma keeps_report_result task_id result : keeps f (report_result w task_id result).
Proof. unfold report_result, http_post. keeps_auto. Qed.

Lemma keeps_call_handler h task : keeps f (call_handler w h task).
Proof.
  unfold call_handler, fetch_hackernews, fetch_crypto_prices, send_telegram,
    health_ping, call_upstream.
  keeps_auto.
Qed.

Lemma keeps_execute_task task : keeps f (execute_task w task).
Proof.
  unfold execute_task, task_handlers_get.
  pose proof keeps_report_result. pose proof keeps_call_handler.
  keeps_auto.
Qed.

Lemma keeps_poll_and_execute : keeps f (poll_and_execute w).
Proof.
  unfold poll_and_execute, http_get.
  pose proof keeps_execute_task.
  keeps_auto.
Qed.

End KeepsWorker.

Lemma keeps_registry_stop : keeps task_handlers stop.
Proof. unfold stop. keeps_auto. Qed.

Lemma keeps_registry_sleep w seconds : keeps task_handlers (sleep w seconds).
Proof. unfold sleep. pose proof keeps_registry_stop. keeps_auto. Qed.

Lemma keeps_registry_worker_loop w cycle fuel :
  keeps task_handlers cycle -> keeps task_handlers (worker_loop w cycle fuel).
Proof.
  intros Hc. pose proof (keeps_registry_sleep w).
  induction fuel as [| fuel IH]; simpl; keeps_auto.
Qed.

Lemma keeps_registry_start w fuel : keeps task_handlers (start w fuel).
Proof.
  unfold start, start_with.
  pose proof (keeps_registry_worker_loop w (poll_and_execute w) fuel
                (keeps_poll_and_execute w task_handlers)).
  keeps_auto.
Qed.

(** ** Operations that agree on every state *)

Lemma bind_ext {A B} (m1 m2 : M A) (k1 k2 : A -> M B) :
  (forall s, m1 s = m2 s) -> (forall a s, k1 a s = k2 a s) ->
  forall s, bind m1 k1 s = bind m2 k2 s.
Proof.
  intros Hm Hk s. unfold bind. rewrite Hm.
  destruct (m2 s) as [[[a | e] s1] t1]; [rewrite Hk |]; reflexivity.
Qed.

Lemma try_except_ext {A} (m1 m2 : M A) (h1 h2 : exn -> M A) :
  (forall s, m1 s = m2 s) -> (forall e s, h1 e s = h2 e s) ->
  forall s, try_except m1 h1 s = try_except m2 h2 s.
Proof.
  intros Hm Hh s. unfold try_except. rewrite Hm.
  destruct (m2 s) as [[[a | e] s1] t1]; [| rewrite Hh]; reflexivity.
Qed.

Lemma for_each_ext {A} (f g : A -> M unit) (l : list A) :
  (forall a s, f a s = g a s) -> forall s, for_each f l s = for_each g l s.
Proof.
  intros Hfg. induction l as [| a l IH]; intros s; simpl; [reflexivity |].
  apply bind_ext; auto.
Qed.

(** ** The runs of the reporter, the handlers and the executor *)

Lemma report_result_run w task_id result s :
  report_result w task_id result s =
    if negb (httpx w) || negb (truthy task_id) then (Ret tt, s, [])
    else (Ret tt, later s, [EvPost (result_url w task_id) result]).
Proof.
  unfold report_result.
  destruct (negb (httpx w) || negb (truthy task_id)); [reflexivity |].
  cbv beta iota zeta delta [try_except bind http_post tick emit lift later result_url].
  simpl. destruct (client_post w (clock s)); reflexivity.
Qed.

Lemma call_handler_trace w h task s :
  trace_of (call_handler w h task s) = [EvInvoke h task].
Proof.
  unfold call_handler, fetch_hackernews, fetch_crypto_prices, send_telegram,
    health_ping, call_upstream, trace_of, bind, emit, tick, lift, get_state; simpl.
  destruct h; simpl; try reflexivity.
  - destruct (httpx w); simpl; [| reflexivity].
    destruct (upstream w H_fetch_hackernews task (clock s)); reflexivity.
  - destruct (httpx w); simpl; [| reflexivity].
    destruct (upstream w H_fetch_crypto_prices task (clock s)); reflexivity.
  - destruct (httpx w); simpl; [| reflexivity].
    destruct task; simpl; try reflexivity.
    match goal with |- context [if ?b then _ else _] => destruct b end; simpl;
      [reflexivity |].
    match goal with |- context [upstream w ?h ?t ?c] => destruct (upstream w h t c) end;
      reflexivity.
Qed.

Lemma execute_task_dict w (m : gmap string json) s :
  execute_task w (JObj m) s =
    if hashable (task_type_of m) then
      match registry_get (task_handlers (self s)) (task_type_of m) with
      | Some h =>
          match call_handler w h (JObj m) s with
          | (Ret result, s1, t1) =>
              (Ret tt,
               state_of (report_result w (default JNull (m !! "id")) result s1),
               EvLog INFO "Executing task: %s" [ArgVal (task_type_of m)]
                 :: t1 ++ trace_of (report_result w (default JNull (m !! "id")) result s1))
          | (Raise e, s1, t1) =>
              (Ret tt, s1,
               EvLog INFO "Executing task: %s" [ArgVal (task_type_of m)]
                 :: t1 ++ [EvLog ERROR "Task %s failed: %s"
                             [ArgVal (task_type_of m); ArgExn e]])
          end
      | None =>
          (Ret tt, s, [EvLog WARNING "Unknown task type: %s" [ArgVal (task_type_of m)]])
      end
    else (Raise (TypeError_unhashable (task_type_of m)), s, []).
Proof.
  unfold execute_task, py_get, lift.
  change (default (JStr "") (m !! "type")) with (task_type_of m).
  cbv beta iota zeta delta
    [bind task_handlers_get get_state ret raise log emit try_except].
  destruct (task_type_of m) as [| b | z | f | k | l | m'] eqn:Hty;
    cbn [hashable registry_get app]; try reflexivity.
  destruct (task_handlers (self s) !! k) as [h |]; [| reflexivity].
  destruct (call_handler w h (JObj m) s) as [[[result | e] s1] t1];
    cbn [app]; [| reflexivity].
  rewrite report_result_run.
  destruct (negb (httpx w) || negb (truthy (default JNull (m !! "id")))); reflexivity.
Qed.

Lemma execute_task_not_dict w task s :
  (forall m, task <> JObj m) ->
  execute_task w task s = (Raise (AttributeError task "get"), s, []).
Proof. intros Hm. destruct task; try reflexivity. destruct (Hm m). reflexivity. Qed.

(** ** Operations that never raise *)

Lemma no_raise_ret {A} (a : A) : no_raise (ret a).
Proof. intros s. exists a. reflexivity. Qed.

Lemma no_raise_emit e : no_raise (emit e).
Proof. intros s. exists tt. reflexivity. Qed.

Lemma no_raise_bind {A B} (m : M A) (k : A -> M B) :
  no_raise m -> (forall a, no_raise (k a)) -> no_raise (bind m k).
Proof.
  intros Hm Hk s. destruct (Hm s) as [a Ha]. unfold bind, result_of in *.
  destruct (m s) as [[r s1] t1]; simpl in Ha; subst r.
  destruct (Hk a s1) as [b Hb]. unfold result_of in Hb.
  destruct (k a s1) as [[r s2] t2]; simpl in *. eauto.
Qed.

(** A [try] whose handler cannot raise cannot raise. *)
Lemma no_raise_try_except {A} (m : M A) (h : exn -> M A) :
  (forall e, no_raise (h e)) -> no_raise (try_except m h).
Proof.
  intros Hh s. unfold try_except, result_of.
  destruct (m s) as [[[a | e] s1] t1]; simpl; [eauto |].
  destruct (Hh e s1) as [b Hb]. unfold result_of in Hb.
  destruct (h e s1) as [[r s2] t2]; simpl in *. eauto.
Qed.

Lemma no_raise_report_result w task_id result : no_raise (report_result w task_id result).
Proof.
  intros s. rewrite report_result_run. exists tt.
  destruct (negb (httpx w) || negb (truthy task_id)); reflexivity.
Qed.

Lemma no_raise_poll_and_execute w : no_raise (poll_and_execute w).
Proof.
  unfold poll_and_execute. destruct (negb (httpx w)).
  - apply no_raise_emit.
  - apply no_raise_try_except. intros e. apply no_raise_emit.
Qed.

Lemma no_raise_stop : no_raise stop.
Proof. intros s. exists tt. reflexivity. Qed.

Lemma no_raise_sleep w seconds : no_raise (sleep w seconds).
Proof.
  intros s. exists tt. unfold sleep, bind, tick, emit, result_of; simpl.
  destruct (stop_requested w (clock s)); reflexivity.
Qed.

Lemma worker_loop_unfold w cycle fuel s :
  worker_loop w cycle fuel s =
    if running (self s) then
      match fuel with
      | O => (Ret FuelExhausted, s, [])
      | S fuel' =>
          (guarded cycle ;; sleep w (WORKER_INTERVAL w) ;; worker_loop w cycle fuel') s
      end
    else (Ret LoopExited, s, []).
Proof.
  destruct fuel as [| fuel]; cbn [worker_loop]; unfold bind at 1; unfold get_state;
    cbv beta iota; destruct (running (self s)); try reflexivity.
  fold (guarded cycle).
  destruct ((guarded cycle ;; sleep w (WORKER_INTERVAL w) ;; worker_loop w cycle fuel) s)
    as [[r s2] t2].
  reflexivity.
Qed.

Lemma no_raise_guarded cycle : no_raise (guarded cycle).
Proof. apply no_raise_try_except. intros e. apply no_raise_emit. Qed.

Lemma no_raise_worker_loop w cycle fuel : no_raise (worker_loop w cycle fuel).
Proof.
  induction fuel as [| fuel IH]; intros s; rewrite worker_loop_unfold;
    destruct (running (self s)); try (eexists; reflexivity).
  apply no_raise_bind; [| intros _; apply no_raise_bind; [| intros _; exact IH]].
  - apply no_raise_guarded.
  - apply no_raise_sleep.
Qed.

(** ** A batch of tasks *)

Lemma execute_task_returns w task s :
  is_task task = true ->
  execute_task w task s =
    (Ret tt, state_of (execute_task w task s), trace_of (execute_task w task s)).
Proof.
  destruct task as [| | | | | | m]; try discriminate. simpl. intros Hh.
  rewrite execute_task_dict, Hh.
  destruct (registry_get (task_handlers (self s)) (task_type_of m)) as [h |];
    [| reflexivity].
  destruct (call_handler w h (JObj m) s) as [[[result | e] s1] t1]; reflexivity.
Qed.

Lemma for_each_in_order w tasks s :
  forallb is_task tasks = true ->
  for_each (execute_task w) tasks s =
    (Ret tt, (in_order w tasks s).1, (in_order w tasks s).2).
Proof.
  revert s. induction tasks as [| task rest IH]; intros s Hall; [reflexivity |].
  simpl in Hall. apply andb_prop in Hall as [Htask Hrest].
  pose proof (execute_task_returns w task s Htask) as Hr.
  cbn [for_each in_order]. unfold bind.
  destruct (execute_task w task s) as [[r s1] t1].
  unfold state_of, trace_of in *. cbn [fst snd] in *.
  injection Hr as ->. rewrite (IH _ Hrest).
  destruct (in_order w rest s1) as [s' t]. reflexivity.
Qed.

(** ** One poll *)

Lemma poll_without_httpx w s :
  httpx w = false ->
  poll_and_execute w s =
    (Ret tt, s, [EvLog WARNING "httpx not installed — skipping task poll" []]).
Proof. intros H. unfold poll_and_execute. rewrite H. reflexivity. Qed.

Lemma poll_fetch_raises w s e :
  httpx w = true -> client_get w (clock s) = inl e ->
  poll_and_execute w s =
    (Ret tt, later s,
     [EvGet (pending_url w); EvLog DEBUG "Daemon not reachable: %s" [ArgExn e]]).
Proof.
  intros H Hget. unfold poll_and_execute. rewrite H.
  cbv beta iota zeta delta [negb try_except bind http_get tick emit lift log].
  cbn [app]. rewrite Hget. reflexivity.
Qed.

Lemma poll_status_not_200 w s resp :
  httpx w = true -> client_get w (clock s) = inr resp -> status_code resp <> 200%Z ->
  poll_and_execute w s = (Ret tt, later s, [EvGet (pending_url w)]).
Proof.
  intros H Hget Hst. unfold poll_and_execute. rewrite H.
  cbv beta iota zeta delta [negb try_except bind http_get tick emit lift log].
  cbn [app]. rewrite Hget. cbv beta iota zeta delta [ret].
  destruct (Z.eqb_spec (status_code resp) 200) as [Heq | _]; [contradiction |].
  reflexivity.
Qed.

Lemma poll_tasks w s resp body tasks :
  httpx w = true -> client_get w (clock s) = inr resp -> status_code resp = 200%Z ->
  resp_json resp = inr (JObj body) -> body !! "tasks" = Some (JArr tasks) ->
  forallb is_task tasks = true ->
  poll_and_execute w s =
    (Ret tt, (in_order w tasks (later s)).1,
     EvGet (pending_url w) :: (in_order w tasks (later s)).2).
Proof.
  intros H Hget Hst Hjson Htasks Hall. unfold poll_and_execute. rewrite H.
  cbv beta iota zeta delta [negb try_except bind http_get tick emit lift].
  cbn [app]. rewrite Hget. cbv beta iota zeta delta [ret].
  rewrite Hst, Hjson. cbn [Z.eqb Pos.eqb py_get]. rewrite Htasks.
  cbv beta iota zeta delta [default from_option id py_iter]. cbn [app].
  fold (later s). rewrite (for_each_in_order w tasks (later s) Hall).
  reflexivity.
Qed.

(** ** The loop *)

Lemma guarded_run cycle s :
  guarded cycle s =
    match cycle s with
    | (Ret a, s1, t1) => (Ret a, s1, t1)
    | (Raise e, s1, t1) =>
        (Ret tt, s1, t1 ++ [EvLog ERROR "Worker loop error: %s" [ArgExn e]])
    end.
Proof.
  unfold guarded, try_except. destruct (cycle s) as [[[a | e] s1] t1]; reflexivity.
Qed.

Lemma sleep_run w seconds s :
  sleep w seconds s =
    if stop_requested w (clock s)
    then (Ret tt, stopped (later s),
          [EvSleep seconds; EvLog INFO "NEXUS Worker stopped" []])
    else (Ret tt, later s, [EvSleep seconds]).
Proof.
  unfold sleep, bind, tick, emit, stop, set_running, log, emit; simpl.
  destruct (stop_requested w (clock s)); reflexivity.
Qed.


Lemma keeps_guarded {X} (f : NexusWorker -> X) cycle :
  keeps f cycle -> keeps f (guarded cycle).
Proof. intros Hc. unfold guarded. keeps_auto. Qed.

(** Leaving the loop takes a stop request. *)
Lemma worker_loop_exit_requested w cycle :
  keeps running cycle ->
  forall fuel s,
    running (self s) = true ->
    result_of (worker_loop w cycle fuel s) = Ret LoopExited ->
    exists c, stop_requested w c = true.
Proof.
  intros Hc. induction fuel as [| fuel IH]; intros s Hrun Hexit;
    rewrite worker_loop_unfold, Hrun in Hexit; [discriminate |].
  pose proof (keeps_guarded running cycle Hc s) as Hg.
  unfold bind at 1 in Hexit.
  destruct (guarded cycle s) as [[[[] | e] s1] t1] eqn:Hgs.
  - unfold state_of in Hg; simpl in Hg. unfold bind at 1 in Hexit.
    rewrite sleep_run in Hexit.
    destruct (stop_requested w (clock s1)) eqn:Hstop; [eauto |].
    destruct (worker_loop w cycle fuel (later s1)) as [[r s2] t2] eqn:Hl.
    apply (IH (later s1)).
    + simpl. congruence.
    + rewrite Hl. exact Hexit.
  - destruct (no_raise_guarded cycle s) as [a Ha]. rewrite Hgs in Ha. discriminate.
Qed.


(** Without a stop request the loop is still running after any number of
    cycles. *)
Lemma worker_loop_runs_on w cycle :
  keeps running cycle ->
  (forall c, stop_requested w c = false) ->
  forall fuel s,
    running (self s) = true ->
    result_of (worker_loop w cycle fuel s) = Ret FuelExhausted.
Proof.
  intros Hc Hnostop fuel s Hrun.
  destruct (no_raise_worker_loop w cycle fuel s) as [[] Hr]; [| exact Hr].
  destruct (worker_loop_exit_requested w cycle Hc fuel s Hrun Hr) as [c Hstop].
  rewrite Hnostop in Hstop. discriminate.
Qed.

(** ** The result endpoint does not steer the worker *)

Section PostIrrelevant.

Variables (w : world) (post : nat -> exn + response).
Lemma report_result_post_irrelevant task_id result s :
  report_result (with_client_post w post) task_id result s = report_result w task_id result s.
Proof. rewrite !report_result_run. reflexivity. Qed.

Lemma execute_task_post_irrelevant task s :
  execute_task (with_client_post w post) task s = execute_task w task s.
Proof.
  destruct task as [| | | | | | m]; try reflexivity.
  rewrite !execute_task_dict.
  destruct (hashable (task_type_of m)); [| reflexivity].
  destruct (registry_get (task_handlers (self s)) (task_type_of m)) as [h |];
    [| reflexivity].
  change (call_handler (with_client_post w post) h (JObj m) s) with (call_handler w h (JObj m) s).
  destruct (call_handler w h (JObj m) s) as [[[result | e] s1] t1]; [| reflexivity].
  rewrite report_result_post_irrelevant. reflexivity.
Qed.

Lemma poll_and_execute_post_irrelevant s :
  poll_and_execute (with_client_post w post) s = poll_and_execute w s.
Proof.
  unfold poll_and_execute. change (httpx (with_client_post w post)) with (httpx w).
  destruct (negb (httpx w)); [reflexivity |].
  apply try_except_ext; [| reflexivity].
  apply bind_ext; [reflexivity |]. intros resp.
  destruct (status_code resp =? 200)%Z; [| reflexivity].
  repeat (apply bind_ext; [reflexivity | intros ?]).
  apply for_each_ext. exact execute_task_post_irrelevant.
Qed.

Lemma worker_loop_post_irrelevant fuel s :
  worker_loop (with_client_post w post) (poll_and_execute (with_client_post w post)) fuel s = worker_loop w (poll_and_execute w) fuel s.
Proof.
  revert s. induction fuel as [| fuel IH]; intros s; [reflexivity |].
  rewrite !worker_loop_unfold. destruct (running (self s)); [| reflexivity].
  apply bind_ext.
  - apply try_except_ext; [exact poll_and_execute_post_irrelevant | reflexivity].
  - intros _. apply bind_ext; [reflexivity | intros _; exact IH].
Qed.

Lemma start_post_irrelevant fuel s : start (with_client_post w post) fuel s = start w fuel s.
Proof.
  unfold start, start_with.
  repeat (apply bind_ext; [reflexivity | intros ?]).
  apply worker_loop_post_irrelevant.
Qed.

End PostIrrelevant.

(** ** Traces of the executor *)

Lemma posts_app t1 t2 : posts (t1 ++ t2) = posts t1 ++ posts t2.
Proof. apply omap_app. Qed.

Lemma invocations_app t1 t2 : invocations (t1 ++ t2) = invocations t1 ++ invocations t2.
Proof. apply omap_app. Qed.

Lemma call_handler_run w h task s :
  call_handler w h task s =
    (result_of (call_handler w h task s), state_of (call_handler w h task s),
     [EvInvoke h task]).
Proof.
  pose proof (call_handler_trace w h task s) as Ht.
  destruct (call_handler w h task s) as [[r s1] t1]. unfold trace_of in Ht; simpl in Ht.
  subst t1. reflexivity.
Qed.

Lemma report_result_falsy_id w task_id result s :
  truthy task_id = false -> report_result w task_id result s = (Ret tt, s, []).
Proof.
  intros Hid. rewrite report_result_run, Hid.
  destruct (httpx w); reflexivity.
Qed.

Lemma registry_get_hashable reg ty h : registry_get reg ty = Some h -> hashable ty = true.
Proof. destruct ty; simpl; congruence. Qed.

(** The executor's run when the registry has no handler for the type. *)
Lemma execute_task_unknown w (m : gmap string json) s :
  registry_get (task_handlers (self s)) (task_type_of m) = None ->
  execute_task w (JObj m) s =
    if hashable (task_type_of m)
    then (Ret tt, s, [EvLog WARNING "Unknown task type: %s" [ArgVal (task_type_of m)]])
    else (Raise (TypeError_unhashable (task_type_of m)), s, []).
Proof. intros Hreg. rewrite execute_task_dict, Hreg. reflexivity. Qed.

(** The executor's run when the handler raises. *)
Lemma execute_task_handler_raises w (m : gmap string json) h e s s1 t1 :
  registry_get (task_handlers (self s)) (task_type_of m) = Some h ->
  call_handler w h (JObj m) s = (Raise e, s1, t1) ->
  execute_task w (JObj m) s =
    (Ret tt, s1,
     [EvLog INFO "Executing task: %s" [ArgVal (task_type_of m)];
      EvInvoke h (JObj m);
      EvLog ERROR "Task %s failed: %s" [ArgVal (task_type_of m); ArgExn e]]).
Proof.
  intros Hreg Hcall. rewrite execute_task_dict, Hreg, (registry_get_hashable _ _ _ Hreg).
  rewrite call_handler_run in Hcall. injection Hcall as Hr Hs Ht.
  rewrite call_handler_run, Hr, Hs. reflexivity.
Qed.

(** The executor's run when the handler returns. *)
Lemma execute_task_handler_returns w (m : gmap string json) h result s s1 t1 :
  registry_get (task_handlers (self s)) (task_type_of m) = Some h ->
  call_handler w h (JObj m) s = (Ret result, s1, t1) ->
  execute_task w (JObj m) s =
    (Ret tt,
     state_of (report_result w (default JNull (m !! "id")) result s1),
     EvLog INFO "Executing task: %s" [ArgVal (task_type_of m)]
       :: EvInvoke h (JObj m)
       :: trace_of (report_result w (default JNull (m !! "id")) result s1)).
Proof.
  intros Hreg Hcall. rewrite execute_task_dict, Hreg, (registry_get_hashable _ _ _ Hreg).
  rewrite call_handler_run in Hcall. injection Hcall as Hr Hs Ht.
  rewrite call_handler_run, Hr, Hs. reflexivity.
Qed.

(** ** Fetch failures *)

Lemma poll_fetch_failed w s :
  httpx w = true -> fetch_failed (client_get w (clock s)) = true ->
  poll_and_execute w s =
    (Ret tt, later s, EvGet (pending_url w) :: fetch_log (client_get w (clock s))).
Proof.
  intros Hx Hfail. destruct (client_get w (clock s)) as [e | resp] eqn:Hget.
  - apply poll_fetch_raises; assumption.
  - apply (poll_status_not_200 w s resp Hx Hget).
    simpl in Hfail. intros Heq. rewrite Heq in Hfail. discriminate.
Qed.

Lemma bind_trace_head {A B} (m : M A) (k : A -> M B) s e t :
  trace_of (m s) = e :: t -> exists t', trace_of (bind m k s) = e :: t'.
Proof.
  unfold bind, trace_of. destruct (m s) as [[[a | x] s1] t1]; simpl; intros ->;
    [destruct (k a s1) as [[r s2] t2] |]; eexists; reflexivity.
Qed.

Lemma try_except_trace_head {A} (m : M A) (h : exn -> M A) s e t :
  trace_of (m s) = e :: t -> exists t', trace_of (try_except m h s) = e :: t'.
Proof.
  unfold try_except, trace_of. destruct (m s) as [[[a | x] s1] t1]; simpl; intros ->;
    [| destruct (h x s1) as [[r s2] t2]]; eexists; reflexivity.
Qed.

Lemma http_get_trace w url s : trace_of (http_get w url s) = [EvGet url].
Proof.
  unfold http_get, bind, tick, emit, lift, trace_of; simpl.
  destruct (client_get w (clock s)); reflexivity.
Qed.

(** With [httpx] installed, a poll starts by fetching the pending tasks. *)
Lemma poll_starts_with_get w s :
  httpx w = true ->
  exists t, trace_of (poll_and_execute w s) = EvGet (pending_url w) :: t.
Proof.
  intros Hx. unfold poll_and_execute. rewrite Hx. cbn [negb].
  destruct (bind_trace_head (http_get w (pending_url w))
              (fun resp =>
                 if (status_code resp =? 200)%Z then
                   body <- lift (resp_json resp) ;;
                   tasks <- lift (py_get body "tasks" (JArr [])) ;;
                   items <- lift (py_iter tasks) ;;
                   for_each (execute_task w) items
                 else ret tt)
              s _ _ (http_get_trace w (pending_url w) s)) as [t Ht].
  exact (try_except_trace_head _ _ s _ t Ht).
Qed.

Lemma worker_loop_starts_with_get w fuel s :
  httpx w = true -> running (self s) = true ->
  exists t,
    trace_of (worker_loop w (poll_and_execute w) (S fuel) s) = EvGet (pending_url w) :: t.
Proof.
  intros Hx Hrun. rewrite worker_loop_unfold, Hrun.
  destruct (poll_starts_with_get w s Hx) as [t Ht].
  destruct (try_except_trace_head (poll_and_execute w)
              (fun e => log ERROR "Worker loop error: %s" [ArgExn e]) s _ t Ht)
    as [t' Ht'].
  exact (bind_trace_head (guarded (poll_and_execute w)) _ s _ t' Ht').
Qed.

(** ** The loop of the actual worker *)

(** Without a stop request, [start] is still looping after any number of
    cycles, whatever the cycle does short of clearing [running]. *)
Lemma start_with_runs_on w cycle fuel s :
  keeps running cycle ->
  (forall c, stop_requested w c = false) ->
  result_of (start_with w cycle fuel s) = Ret FuelExhausted.
Proof.
  intros Hc Hnostop. unfold start_with, bind, set_running, log, emit, result_of.
  cbn [fst snd].
  pose proof (worker_loop_runs_on w cycle Hc Hnostop fuel
                {| self := {| running := true; task_handlers := task_handlers (self s) |};
                   clock := clock s |} eq_refl) as Hloop.
  unfold result_of in Hloop.
  destruct (worker_loop w cycle fuel _) as [[r s2] t2].
  exact Hloop.
Qed.

(** The same for the worker as it is: whatever the control plane, the
    handlers and the result endpoint do. *)
Lemma start_runs_on w fuel s :
  (forall c, stop_requested w c = false) ->
  result_of (start w fuel s) = Ret FuelExhausted.
Proof.
  intros Hnostop.
  exact (start_with_runs_on w (poll_and_execute w) fuel s
           (keeps_poll_and_execute w running) Hnostop).
Qed.

(** A task whose type is a list aborts its batch: the tasks after it are
    not executed, and the poll logs the [TypeError] as an unreachable
    daemon. *)
Example list_type_aborts_batch :
  trace_of (poll_and_execute
              (serving [JObj (list_to_map [("id", JStr "t9"); ("type", JArr [])]);
                        task "t1" "health_ping"]) fresh) =
    [EvGet (pending_url idle_world);
     EvLog DEBUG "Daemon not reachable: %s"
       [ArgExn (Exn "TypeError" "unhashable type: 'list'")]].
Proof. vm_compute. reflexivity. Qed.

(** With a result endpoint that refuses every connection, both tasks of a
    batch are executed and both reports are attempted, once each. *)
Example refused_reports_do_not_stop_batch :
  (posts (trace_of (poll_and_execute
                      (refusing (serving [task "a" "health_ping"; task "b" "health_ping"]))
                      fresh))).*1 =
    [result_url idle_world (JStr "a"); result_url idle_world (JStr "b")]
  /\ logs_above DEBUG
       (trace_of (poll_and_execute
                    (refusing (serving [task "a" "health_ping"; task "b" "health_ping"]))
                    fresh)) =
     [(INFO, "Executing task: %s"); (INFO, "Executing task: %s")].
Proof. split; vm_compute; reflexivity. Qed.

(** ** Order of processing *)

Lemma in_order_registry w tasks s :
  task_handlers (self (in_order w tasks s).1) = task_handlers (self s).
Proof.
  revert s. induction tasks as [| v rest IH]; intros s; [reflexivity |].
  cbn [in_order]. specialize (IH (state_of (execute_task w v s))).
  destruct (in_order w rest (state_of (execute_task w v s))) as [s' t].
  cbn [fst] in *. rewrite IH. apply keeps_execute_task.
Qed.

Lemma execute_task_invocations w v s :
  is_task v = true ->
  (invocations (trace_of (execute_task w v s))).*2 =
    if known (task_handlers (self s)) v then [v] else [].
Proof.
  destruct v as [| | | | | | m]; try discriminate. cbn [is_task known]. intros Hh.
  rewrite execute_task_dict, Hh.
  destruct (registry_get (task_handlers (self s)) (task_type_of m)) as [h |] eqn:Hreg.
  - rewrite bool_decide_eq_true_2 by eauto.
    rewrite call_handler_run.
    destruct (result_of (call_handler w h (JObj m) s)) as [result | e];
      [| reflexivity].
    rewrite report_result_run.
    destruct (negb (httpx w) || negb (truthy (default JNull (m !! "id"))));
      reflexivity.
  - rewrite bool_decide_eq_false_2 by (intros [h Hs]; discriminate). reflexivity.
Qed.

Lemma in_order_invocations w tasks s :
  forallb is_task tasks = true ->
  (invocations (in_order w tasks s).2).*2 =
    List.filter (known (task_handlers (self s))) tasks.
Proof.
  revert s. induction tasks as [| v rest IH]; intros s Hall; [reflexivity |].
  simpl in Hall. apply andb_prop in Hall as [Hv Hrest].
  cbn [in_order List.filter].
  specialize (IH (state_of (execute_task w v s)) Hrest).
  rewrite (keeps_execute_task w task_handlers v s) in IH.
  destruct (in_order w rest (state_of (execute_task w v s))) as [s' t].
  cbn [snd] in *. rewrite invocations_app, fmap_app, IH.
  rewrite (execute_task_invocations w v s Hv).
  destruct (known (task_handlers (self s)) v); reflexivity.
Qed.

(** * The claims *)

(** C1, as the code has it.  For a task whose type is not a key of the
    registry, no handler is invoked and nothing is sent to the control
    plane; when the type can be hashed, the executor returns normally and
    its only effect is the warning [Unknown task type]. *)
Theorem unknown_type_is_only_logged (w : world) (m : gmap string json) (s : state) :
  registry_get (task_handlers (self s)) (task_type_of m) = None ->
  invocations (trace_of (execute_task w (JObj m) s)) = []
  /\ posts (trace_of (execute_task w (JObj m) s)) = []
  /\ (hashable (task_type_of m) = true ->
      execute_task w (JObj m) s =
        (Ret tt, s,
         [EvLog WARNING "Unknown task type: %s" [ArgVal (task_type_of m)]])).
Proof.
  intros Hreg. rewrite (execute_task_unknown w m s Hreg).
  destruct (hashable (task_type_of m)); repeat split; intros; congruence.
Qed.

(** The task [{"id": "t2", "type": "bogus"}] on a fresh worker. *)
Lemma unknown_type_is_only_logged_witness :
  registry_get (task_handlers (self fresh)) (JStr "bogus") = None
  /\ execute_task idle_world (task "t2" "bogus") fresh =
       (Ret tt, fresh, [EvLog WARNING "Unknown task type: %s" [ArgVal (JStr "bogus")]]).
Proof.
  split; [reflexivity |].
  refine (proj2 (proj2 (unknown_type_is_only_logged idle_world
           (list_to_map [("id", JStr "t2"); ("type", JStr "bogus")]) fresh _)) _);
    reflexivity.
Defined.

(** C1 as stated fails: executing [{"id": "t2", "type": "bogus"}] posts
    nothing at all, so no error result reaches the control plane. *)
Lemma unknown_type_posts_nothing :
  ~ (exists url body,
       In (EvPost url body) (trace_of (execute_task idle_world (task "t2" "bogus") fresh))).
Proof.
  intros (url & body & Hin). vm_compute in Hin.
  destruct Hin as [Hin | []]. discriminate Hin.
Qed.

(** C2, as the code has it.  When the handler of a task raises, the
    executor returns normally; it logs, at error level, the task type and
    the exception, and sends nothing; and a batch that starts with this
    task goes on with the tasks that follow it. *)
Theorem handler_error_is_logged (w : world) (m : gmap string json) (h : handler)
    (e : exn) (s s1 : state) (t1 : list event) (rest : list json) :
  registry_get (task_handlers (self s)) (task_type_of m) = Some h ->
  call_handler w h (JObj m) s = (Raise e, s1, t1) ->
  execute_task w (JObj m) s =
    (Ret tt, s1,
     [EvLog INFO "Executing task: %s" [ArgVal (task_type_of m)];
      EvInvoke h (JObj m);
      EvLog ERROR "Task %s failed: %s" [ArgVal (task_type_of m); ArgExn e]])
  /\ for_each (execute_task w) (JObj m :: rest) s =
       (let '(r, s2, t2) := for_each (execute_task w) rest s1 in
        (r, s2,
         EvLog INFO "Executing task: %s" [ArgVal (task_type_of m)]
           :: EvInvoke h (JObj m)
           :: EvLog ERROR "Task %s failed: %s" [ArgVal (task_type_of m); ArgExn e]
           :: t2)).
Proof.
  intros Hreg Hcall.
  pose proof (execute_task_handler_raises w m h e s s1 t1 Hreg Hcall) as Hrun.
  split; [exact Hrun |].
  cbn [for_each]. unfold bind. rewrite Hrun.
  destruct (for_each (execute_task w) rest s1) as [[r s2] t2]. reflexivity.
Qed.

(** A price fetch that times out, followed by a health ping. *)
Lemma handler_error_is_logged_witness :
  trace_of (for_each (execute_task upstream_down)
              [task "t5" "fetch_crypto"; task "t6" "health_ping"] fresh) =
    [EvLog INFO "Executing task: %s" [ArgVal (JStr "fetch_crypto")];
     EvInvoke H_fetch_crypto_prices (task "t5" "fetch_crypto");
     EvLog ERROR "Task %s failed: %s" [ArgVal (JStr "fetch_crypto"); ArgExn ReadTimeout];
     EvLog INFO "Executing task: %s" [ArgVal (JStr "health_ping")];
     EvInvoke H_health_ping (task "t6" "health_ping");
     EvPost (result_url upstream_down (JStr "t6"))
       (list_to_map [("status", JStr "ok"); ("worker", JStr "nexus-python");
                     ("ts", JStr "2024-01-01T00:00:00")])].
Proof.
  pose proof (handler_error_is_logged upstream_down
                (list_to_map [("id", JStr "t5"); ("type", JStr "fetch_crypto")])
                H_fetch_crypto_prices ReadTimeout fresh (later fresh)
                [EvInvoke H_fetch_crypto_prices (task "t5" "fetch_crypto")]
                [task "t6" "health_ping"] eq_refl eq_refl) as [_ Hbatch].
  unfold task at 1. rewrite Hbatch. vm_compute. reflexivity.
Defined.

(** C2 as stated fails: when the handler of [{"id": "t5", "type":
    "fetch_crypto"}] times out, no result with an error field is produced
    for the control plane (nothing is posted). *)
Lemma handler_error_yields_no_result :
  ~ (exists url body,
       In (EvPost url body)
          (trace_of (execute_task upstream_down (task "t5" "fetch_crypto") fresh))
       /\ is_Some (body !! "error")).
Proof.
  intros (url & body & Hin & _). vm_compute in Hin.
  destruct Hin as [Hin | [Hin | [Hin | []]]]; discriminate Hin.
Qed.

(** C3, as the code has it.  The registry's key for the health check is
    ["health_ping"].  When the control plane returns the single task
    [{"id": "t1", "type": "health_ping"}], the cycle resolves the handler
    [health_ping], whose payload has ["status"] set to ["ok"], and posts
    that payload to [{NEXUS_API}/api/tasks/t1/result]. *)
Theorem health_ping_is_reported (w : world) (s : state) (resp : response)
    (body : gmap string json) :
  httpx w = true ->
  task_handlers (self s) = task_handlers init ->
  client_get w (clock s) = inr resp ->
  status_code resp = 200%Z ->
  resp_json resp = inr (JObj body) ->
  body !! "tasks" = Some (JArr [task "t1" "health_ping"]) ->
  registry_get (task_handlers (self s)) (JStr "health_ping") = Some H_health_ping
  /\ (exists payload,
        payload !! "status" = Some (JStr "ok")
        /\ result_of (health_ping w (task "t1" "health_ping") (later s)) = Ret payload
        /\ poll_and_execute w s =
             (Ret tt, later (later s),
              [EvGet (pending_url w);
               EvLog INFO "Executing task: %s" [ArgVal (JStr "health_ping")];
               EvInvoke H_health_ping (task "t1" "health_ping");
               EvPost (result_url w (JStr "t1")) payload]))
  /\ render (result_url w (JStr "t1")) = Some (NEXUS_API w +:+ "/api/tasks/t1/result").
Proof.
  intros Hx Hreg Hget Hst Hjson Htasks.
  assert (Hh : registry_get (task_handlers (self s)) (JStr "health_ping")
               = Some H_health_ping) by (rewrite Hreg; reflexivity).
  split; [exact Hh | split; [| reflexivity]].
  eexists. split; [| split; [reflexivity |]].
  - reflexivity.
  - rewrite (poll_tasks w s resp body _ Hx Hget Hst Hjson Htasks eq_refl).
    cbn [in_order]. unfold task.
    erewrite (execute_task_handler_returns w _ H_health_ping _ (later s) (later s));
      [| exact Hh | reflexivity].
    rewrite report_result_run, Hx. reflexivity.
Qed.

(** The scenario on a fresh worker, with the configuration's defaults. *)
Lemma health_ping_is_reported_witness :
  exists payload,
    payload !! "status" = Some (JStr "ok")
    /\ poll_and_execute (serving [task "t1" "health_ping"]) fresh =
         (Ret tt, later (later fresh),
          [EvGet (pending_url idle_world);
           EvLog INFO "Executing task: %s" [ArgVal (JStr "health_ping")];
           EvInvoke H_health_ping (task "t1" "health_ping");
           EvPost (result_url idle_world (JStr "t1")) payload]).
Proof.
  destruct (health_ping_is_reported (serving [task "t1" "health_ping"]) fresh
              {| status_code := 200;
                 resp_json := inr (JObj {[ "tasks" := JArr [task "t1" "health_ping"] ]}) |}
              {[ "tasks" := JArr [task "t1" "health_ping"] ]}
              eq_refl eq_refl eq_refl eq_refl eq_refl eq_refl)
    as (_ & (payload & Hstatus & _ & Hrun) & _).
  exists payload. split; [exact Hstatus | exact Hrun].
Defined.

(** C3 as stated fails: the registry has no key ["health-check"], so when
    the control plane returns [{"id": "t1", "type": "health-check"}] the
    cycle posts nothing. *)
Lemma health_check_is_not_reported :
  ~ (exists url body,
       In (EvPost url body)
          (trace_of (poll_and_execute (serving [task "t1" "health-check"]) fresh))).
Proof.
  intros (url & body & Hin). vm_compute in Hin.
  destruct Hin as [Hin | [Hin | []]]; discriminate Hin.
Qed.

(** C4, as the code has it.  When the fetch fails, the poll executes no
    task and returns; a request that raised is logged at debug level, a
    response whose status is not 200 is skipped without any log record, and
    nothing is logged above debug level.  The loop then sleeps for the
    interval and, unless the worker is stopped meanwhile, the next cycle
    starts with a new fetch. *)
Theorem failed_fetch_skips_cycle (w : world) (s : state) (fuel : nat) :
  httpx w = true ->
  fetch_failed (client_get w (clock s)) = true ->
  poll_and_execute w s =
    (Ret tt, later s, EvGet (pending_url w) :: fetch_log (client_get w (clock s)))
  /\ invocations (trace_of (poll_and_execute w s)) = []
  /\ logs_above DEBUG (trace_of (poll_and_execute w s)) = []
  /\ (running (self s) = true ->
      stop_requested w (S (clock s)) = false ->
      exists r s' t,
        worker_loop w (poll_and_execute w) (S (S fuel)) s =
          (r, s',
           EvGet (pending_url w) :: fetch_log (client_get w (clock s))
             ++ EvSleep (WORKER_INTERVAL w) :: EvGet (pending_url w) :: t)).
Proof.
  intros Hx Hfail. pose proof (poll_fetch_failed w s Hx Hfail) as Hpoll.
  split; [exact Hpoll | split; [| split]].
  - rewrite Hpoll. destruct (client_get w (clock s)); reflexivity.
  - rewrite Hpoll. destruct (client_get w (clock s)); reflexivity.
  - intros Hrun Hnostop. rewrite worker_loop_unfold, Hrun. unfold bind at 1.
    rewrite guarded_run, Hpoll. unfold bind at 1. rewrite sleep_run.
    cbn [later clock]. rewrite Hnostop.
    destruct (worker_loop_starts_with_get w fuel (later (later s)) Hx Hrun) as [t Ht].
    destruct (worker_loop w (poll_and_execute w) (S fuel) (later (later s)))
      as [[r s2] t2].
    unfold trace_of in Ht; simpl in Ht; subst t2.
    exists r, s2, t. destruct (client_get w (clock s)); reflexivity.
Qed.

(** Two cycles against a control plane that answers 503. *)
Lemma failed_fetch_skips_cycle_witness :
  fetch_failed (client_get unavailable (clock started)) = true
  /\ exists r s' t,
       worker_loop unavailable (poll_and_execute unavailable) 2 started =
         (r, s',
          EvGet (pending_url unavailable) :: EvSleep 30
            :: EvGet (pending_url unavailable) :: t).
Proof.
  split; [reflexivity |].
  exact (proj2 (proj2 (proj2
           (failed_fetch_skips_cycle unavailable started 0 eq_refl eq_refl)))
           eq_refl eq_refl).
Defined.

(** C4 as stated fails: a response with status 503 is a failed fetch, and
    the cycle logs nothing about it. *)
Lemma failed_status_is_not_logged :
  ~ (exists lvl fmt args,
       In (EvLog lvl fmt args) (trace_of (poll_and_execute unavailable fresh))).
Proof.
  intros (lvl & fmt & args & Hin). vm_compute in Hin.
  destruct Hin as [Hin | []]. discriminate Hin.
Qed.



(** C6. A report never raises, logs nothing and sends at most one request,
    whatever the result endpoint answers (an exception or a response of any
    status); and the answers of the result endpoint change nothing in a
    poll or in a whole run of the loop: outcome, state and trace are the
    same under any other behaviour of that endpoint. *)
Theorem report_failure_is_swallowed (w : world) (post : nat -> exn + response)
    (task_id : json) (result : gmap string json) (fuel : nat) (s : state) :
  report_result w task_id result s =
    (if negb (httpx w) || negb (truthy task_id) then (Ret tt, s, [])
     else (Ret tt, later s, [EvPost (result_url w task_id) result]))
  /\ poll_and_execute (with_client_post w post) s = poll_and_execute w s
  /\ start (with_client_post w post) fuel s = start w fuel s.
Proof.
  split; [apply report_result_run | split].
  - apply poll_and_execute_post_irrelevant.
  - apply start_post_irrelevant.
Qed.

(** C7, as the code has it.  After a successful fetch, the tasks of the
    list are processed one after the other in the order received: the
    cycle is the fetch followed by the runs of [execute_task] on each task
    in turn, each from the state its predecessor left, and the handlers
    are invoked on the tasks that have one, in the order of the list.  Not
    every task is reported: the report of a result comes, right after the
    invocation and before anything of the next task, only for a task whose
    type has a handler that returns; a task whose type has none is only
    logged with a warning, and a task whose handler raises is only logged
    with an error, and for neither of them is anything posted. *)
Theorem tasks_run_in_order (w : world) (s : state) (resp : response)
    (body : gmap string json) (tasks : list json) :
  httpx w = true ->
  client_get w (clock s) = inr resp ->
  status_code resp = 200%Z ->
  resp_json resp = inr (JObj body) ->
  body !! "tasks" = Some (JArr tasks) ->
  forallb is_task tasks = true ->
  poll_and_execute w s =
    (Ret tt, (in_order w tasks (later s)).1,
     EvGet (pending_url w) :: (in_order w tasks (later s)).2)
  /\ (invocations (trace_of (poll_and_execute w s))).*2 =
       List.filter (known (task_handlers (self s))) tasks
  /\ (forall m h result s0 s1 t1,
        registry_get (task_handlers (self s0)) (task_type_of m) = Some h ->
        call_handler w h (JObj m) s0 = (Ret result, s1, t1) ->
        trace_of (execute_task w (JObj m) s0) =
          EvLog INFO "Executing task: %s" [ArgVal (task_type_of m)]
            :: EvInvoke h (JObj m)
            :: trace_of (report_result w (default JNull (m !! "id")) result s1))
  /\ (forall m s0,
        is_task (JObj m) = true ->
        registry_get (task_handlers (self s0)) (task_type_of m) = None ->
        execute_task w (JObj m) s0 =
          (Ret tt, s0,
           [EvLog WARNING "Unknown task type: %s" [ArgVal (task_type_of m)]]))
  /\ (forall m h e s0 s1 t1,
        registry_get (task_handlers (self s0)) (task_type_of m) = Some h ->
        call_handler w h (JObj m) s0 = (Raise e, s1, t1) ->
        execute_task w (JObj m) s0 =
          (Ret tt, s1,
           [EvLog INFO "Executing task: %s" [ArgVal (task_type_of m)];
            EvInvoke h (JObj m);
            EvLog ERROR "Task %s failed: %s" [ArgVal (task_type_of m); ArgExn e]])).
Proof.
  intros Hx Hget Hst Hjson Htasks Hall.
  pose proof (poll_tasks w s resp body tasks Hx Hget Hst Hjson Htasks Hall) as Hpoll.
  repeat apply conj.
  - exact Hpoll.
  - rewrite Hpoll. unfold trace_of. cbn [snd invocations omap].
    exact (in_order_invocations w tasks (later s) Hall).
  - intros m h result s0 s1 t1 Hreg Hcall.
    rewrite (execute_task_handler_returns w m h result s0 s1 t1 Hreg Hcall).
    reflexivity.
  - intros m s0 Htask Hreg. rewrite (execute_task_unknown w m s0 Hreg).
    cbn [is_task] in Htask. rewrite Htask. reflexivity.
  - intros m h e s0 s1 t1 Hreg Hcall.
    exact (execute_task_handler_raises w m h e s0 s1 t1 Hreg Hcall).
Qed.

(** Three tasks, the second of an unknown type. *)
Lemma tasks_run_in_order_witness :
  (posts (trace_of (poll_and_execute
                     (serving [task "a" "health_ping"; task "b" "bogus";
                               task "c" "health_ping"]) fresh))).*1
    = [result_url idle_world (JStr "a"); result_url idle_world (JStr "c")]
  /\ (invocations (trace_of (poll_and_execute
                     (serving [task "a" "health_ping"; task "b" "bogus";
                               task "c" "health_ping"]) fresh))).*2
    = [task "a" "health_ping"; task "c" "health_ping"].
Proof.
  destruct (tasks_run_in_order
              (serving [task "a" "health_ping"; task "b" "bogus"; task "c" "health_ping"])
              fresh
              {| status_code := 200;
                 resp_json := inr (JObj {[ "tasks" := JArr [task "a" "health_ping";
                               task "b" "bogus"; task "c" "health_ping"] ]}) |}
              {[ "tasks" := JArr [task "a" "health_ping"; task "b" "bogus";
                                  task "c" "health_ping"] ]}
              [task "a" "health_ping"; task "b" "bogus"; task "c" "health_ping"]
              eq_refl eq_refl eq_refl eq_refl eq_refl eq_refl)
    as (Hrun & Hinv & _).
  split.
  - rewrite Hrun. vm_compute. reflexivity.
  - rewrite Hinv. vm_compute. reflexivity.
Defined.

(** C7 as stated fails: a successful fetch that returns the one task
    [{"id": "b", "type": "bogus"}] executes it and reports nothing; the
    cycle is the fetch and the warning. *)
Lemma unknown_task_in_batch_is_not_reported :
  poll_and_execute (serving [task "b" "bogus"]) fresh =
    (Ret tt, later fresh,
     [EvGet (pending_url (serving [task "b" "bogus"]));
      EvLog WARNING "Unknown task type: %s" [ArgVal (JStr "bogus")]])
  /\ posts (trace_of (poll_and_execute (serving [task "b" "bogus"]) fresh)) = [].
Proof. split; vm_compute; reflexivity. Qed.

(** C8. The registry is filled by the constructor, with its four handlers,
    and no operation of the worker changes it: whatever the world does,
    [start], [stop], a poll, the execution of a task, a report and every
    handler leave [task_handlers] as they found it. *)
Theorem registry_never_changes (w : world) :
  dom (task_handlers init) = {[ "fetch_hn"; "fetch_crypto"; "send_telegram"; "health_ping" ]}
  /\ (forall fuel, keeps task_handlers (start w fuel))
  /\ keeps task_handlers stop
  /\ keeps task_handlers (poll_and_execute w)
  /\ (forall task, keeps task_handlers (execute_task w task))
  /\ (forall task_id result, keeps task_handlers (report_result w task_id result))
  /\ (forall h task, keeps task_handlers (call_handler w h task)).
Proof.
  repeat apply conj.
  - unfold init; cbn [task_handlers list_to_map foldr uncurry fst snd].
    rewrite !dom_insert_L, dom_empty_L. set_solver.
  - exact (keeps_registry_start w).
  - exact keeps_registry_stop.
  - apply keeps_poll_and_execute.
  - intros task. apply keeps_execute_task.
  - intros task_id result. apply keeps_report_result.
  - intros h task. apply keeps_call_handler.
Qed.

(** C9. For a task dictionary without an ["id"], or whose id is the empty
    string, the reporter returns at once without sending anything, and the
    execution of the task sends no request to the control plane. *)
Theorem no_report_without_id (w : world) (m : gmap string json) (s : state) :
  m !! "id" = None \/ m !! "id" = Some (JStr "") ->
  (forall result s1,
     report_result w (default JNull (m !! "id")) result s1 = (Ret tt, s1, []))
  /\ posts (trace_of (execute_task w (JObj m) s)) = [].
Proof.
  intros Hid.
  assert (Hfalsy : truthy (default JNull (m !! "id")) = false)
    by (destruct Hid as [-> | ->]; reflexivity).
  split; [intros result s1; apply report_result_falsy_id, Hfalsy |].
  rewrite execute_task_dict.
  destruct (hashable (task_type_of m)); [| reflexivity].
  destruct (registry_get (task_handlers (self s)) (task_type_of m)) as [h |];
    [| reflexivity].
  rewrite call_handler_run.
  destruct (result_of (call_handler w h (JObj m) s)) as [result | e]; [| reflexivity].
  rewrite (report_result_falsy_id _ _ _ _ Hfalsy). reflexivity.
Qed.

(** A health ping without an id. *)
Lemma no_report_without_id_witness :
  anonymous_ping !! "id" = None
  /\ posts (trace_of (execute_task idle_world (JObj anonymous_ping) fresh)) = [].
Proof.
  split; [reflexivity |].
  apply (no_report_without_id idle_world anonymous_ping fresh).
  left. reflexivity.
Defined.

(** C10, as the code has it.  For a task dictionary whose type can be
    hashed (a string, a number, a boolean, [None], or no ["type"] at all),
    [execute_task] returns and never raises, whatever the handler and the
    result endpoint do; and a dictionary without a ["type"] is handled as
    type [""], which the registry does not have: the only effect is the
    warning [Unknown task type]. *)
Theorem execute_task_total_on_hashable_type (w : world) (m : gmap string json)
    (s : state) :
  hashable (task_type_of m) = true ->
  (exists s' t, execute_task w (JObj m) s = (Ret tt, s', t))
  /\ (m !! "type" = None ->
      task_handlers (self s) = task_handlers init ->
      execute_task w (JObj m) s =
        (Ret tt, s, [EvLog WARNING "Unknown task type: %s" [ArgVal (JStr "")]])).
Proof.
  intros Hh. split.
  - rewrite (execute_task_returns w (JObj m) s Hh). eauto.
  - intros Hty Hreg. rewrite execute_task_dict. unfold task_type_of. rewrite Hty.
    cbn [default from_option id hashable registry_get].
    change (from_option id (JStr "") None) with (JStr "").
    cbn [default from_option id hashable registry_get].
    rewrite Hreg. reflexivity.
Qed.

(** A task with an id and no type. *)
Lemma execute_task_total_on_hashable_type_witness :
  hashable (task_type_of {[ "id" := JStr "t7" ]}) = true
  /\ execute_task idle_world (JObj {[ "id" := JStr "t7" ]}) fresh =
       (Ret tt, fresh, [EvLog WARNING "Unknown task type: %s" [ArgVal (JStr "")]]).
Proof.
  split; [reflexivity |].
  refine (proj2 (execute_task_total_on_hashable_type idle_world
                   {[ "id" := JStr "t7" ]} fresh _) _ _); reflexivity.
Defined.

(** C10 as stated fails: a dictionary whose ["type"] is a list makes the
    registry lookup raise [TypeError], outside the [try] of [execute_task],
    and the exception reaches the caller. *)
Lemma execute_task_raises_on_list_type :
  execute_task idle_world (JObj (list_to_map [("id", JStr "t9"); ("type", JArr [])])) fresh
  = (Raise (Exn "TypeError" "unhashable type: 'list'"), fresh, []).
Proof. vm_compute. reflexivity. Qed.

(** * Further properties *)

(** ** Traces of composed operations *)

Lemma bind_trace {A B} (m : M A) (k : A -> M B) s :
  trace_of (bind m k s) =
    trace_of (m s) ++
    match result_of (m s) with
    | Ret a => trace_of (k a (state_of (m s)))
    | Raise _ => []
    end.
Proof.
  unfold bind, trace_of, result_of, state_of.
  destruct (m s) as [[[a | e] s1] t1]; cbn [fst snd].
  - destruct (k a s1) as [[r s2] t2]. reflexivity.
  - rewrite app_nil_r. reflexivity.
Qed.

Lemma try_except_trace {A} (m : M A) (h : exn -> M A) s :
  trace_of (try_except m h s) =
    trace_of (m s) ++
    match result_of (m s) with
    | Ret _ => []
    | Raise e => trace_of (h e (state_of (m s)))
    end.
Proof.
  unfold try_except, trace_of, result_of, state_of.
  destruct (m s) as [[[a | e] s1] t1]; cbn [fst snd].
  - rewrite app_nil_r. reflexivity.
  - destruct (h e s1) as [[r s2] t2]. reflexivity.
Qed.

Lemma additive_Forall (P : event -> Prop) : Additive (Forall P).
Proof. split; [constructor | intros t1 t2 H1 H2; apply Forall_app; auto]. Qed.
#[local] Existing Instance additive_Forall.

Lemma additive_balanced : Additive balanced.
Proof.
  split; unfold balanced; [reflexivity |].
  intros t1 t2 H1 H2. rewrite posts_app, invocations_app, !length_app. lia.
Qed.
#[local] Existing Instance additive_balanced.

Section TraceIn.

Context (Q : list event -> Prop) `{!Additive Q}.

Lemma trace_in_ret {A} (a : A) : trace_in Q (ret a).
Proof. intros s. apply additive_nil. Qed.

Lemma trace_in_raise {A} (e : exn) : trace_in Q (@raise A e).
Proof. intros s. apply additive_nil. Qed.

Lemma trace_in_lift {A} (r : exn + A) : trace_in Q (lift r).
Proof. destruct r; intros s; apply additive_nil. Qed.

Lemma trace_in_get_state : trace_in Q get_state.
Proof. intros s. apply additive_nil. Qed.

Lemma trace_in_tick : trace_in Q tick.
Proof. intros s. apply additive_nil. Qed.

Lemma trace_in_set_running b : trace_in Q (set_running b).
Proof. intros s. apply additive_nil. Qed.

Lemma trace_in_emit e : Q [e] -> trace_in Q (emit e).
Proof. intros He s. exact He. Qed.

Lemma trace_in_bind {A B} (m : M A) (k : A -> M B) :
  trace_in Q m -> (forall a, trace_in Q (k a)) -> trace_in Q (bind m k).
Proof.
  intros Hm Hk s. rewrite bind_trace. apply additive_app; [apply Hm |].
  destruct (result_of (m s)); [apply Hk | apply additive_nil].
Qed.

Lemma trace_in_try_except {A} (m : M A) (h : exn -> M A) :
  trace_in Q m -> (forall e, trace_in Q (h e)) -> trace_in Q (try_except m h).
Proof.
  intros Hm Hh s. rewrite try_except_trace. apply additive_app; [apply Hm |].
  destruct (result_of (m s)); [apply additive_nil | apply Hh].
Qed.

Lemma trace_in_for_each {A} (g : A -> M unit) (l : list A) :
  (forall a, trace_in Q (g a)) -> trace_in Q (for_each g l).
Proof.
  intros Hg. induction l as [| a l IH]; cbn [for_each].
  - apply trace_in_ret.
  - apply trace_in_bind; auto.
Qed.

End TraceIn.

Create HintDb trace_in.
#[local] Hint Resolve trace_in_ret trace_in_raise trace_in_lift trace_in_get_state
  trace_in_tick trace_in_set_running : trace_in.

(** Decompose an operation along its binds, handlers and branches. *)
Ltac trace_in_step :=
  match goal with
  | |- trace_in _ (bind _ _) => apply trace_in_bind; [typeclasses eauto | | intros ?]
  | |- trace_in _ (try_except _ _) =>
      apply trace_in_try_except; [typeclasses eauto | | intros ?]
  | |- trace_in _ (for_each _ _) => apply trace_in_for_each; [typeclasses eauto | intros ?]
  | |- trace_in _ (if ?b then _ else _) => destruct b
  | |- trace_in _ (match ?x with _ => _ end) => destruct x
  end.

Ltac trace_in_auto := repeat trace_in_step; auto with trace_in typeclass_instances.

(** ** The traffic of the worker *)

Lemma trace_in_report_result (Q : list event -> Prop) `{!Additive Q} w task_id result :
  (truthy task_id = true -> Q [EvPost (result_url w task_id) result]) ->
  trace_in Q (report_result w task_id result).
Proof.
  intros HQ s. rewrite report_result_run.
  destruct (httpx w); cbn [negb orb]; [| apply additive_nil].
  destruct (truthy task_id); cbn [negb]; [apply HQ; reflexivity | apply additive_nil].
Qed.

Lemma trace_in_call_handler (Q : list event -> Prop) w h task :
  Q [EvInvoke h task] -> trace_in Q (call_handler w h task).
Proof. intros HQ s. rewrite call_handler_trace. exact HQ. Qed.

Lemma trace_in_execute_task (Q : list event -> Prop) `{!Additive Q} w task :
  (forall lvl fmt args, Q [EvLog lvl fmt args]) ->
  (forall h, Q [EvInvoke h task]) ->
  (forall task_id result,
     truthy task_id = true -> Q [EvPost (result_url w task_id) result]) ->
  trace_in Q (execute_task w task).
Proof.
  intros Hlog Hinv Hpost. unfold execute_task, task_handlers_get, log.
  pose proof (fun id r => trace_in_report_result Q w id r (Hpost id r)).
  pose proof (fun h => trace_in_call_handler Q w h task (Hinv h)).
  pose proof (fun l f a => trace_in_emit Q (EvLog l f a) (Hlog l f a)).
  trace_in_auto.
Qed.

Lemma trace_in_poll_over (Q : list event -> Prop) `{!Additive Q} w :
  (forall lvl fmt args, Q [EvLog lvl fmt args]) ->
  (forall task, trace_in Q (execute_task w task)) ->
  (httpx w = true -> Q [EvGet (pending_url w)]) ->
  trace_in Q (poll_and_execute w).
Proof.
  intros Hlog Hexec Hget. unfold poll_and_execute, log.
  pose proof (fun l f a => trace_in_emit Q (EvLog l f a) (Hlog l f a)).
  destruct (httpx w); cbn [negb]; [| auto].
  assert (trace_in Q (http_get w (pending_url w))).
  { intros s. rewrite http_get_trace. auto. }
  fold (pending_url w). trace_in_auto.
Qed.

Lemma trace_in_sleep (Q : list event -> Prop) `{!Additive Q} w seconds :
  (forall lvl fmt args, Q [EvLog lvl fmt args]) ->
  Q [EvSleep seconds] ->
  trace_in Q (sleep w seconds).
Proof.
  intros Hlog Hsleep. unfold sleep, stop, log.
  pose proof (fun l f a => trace_in_emit Q (EvLog l f a) (Hlog l f a)).
  pose proof (trace_in_emit Q (EvSleep seconds) Hsleep).
  trace_in_auto.
Qed.

Lemma trace_in_start_with (Q : list event -> Prop) `{!Additive Q} w cycle fuel :
  (forall lvl fmt args, Q [EvLog lvl fmt args]) ->
  Q [EvSleep (WORKER_INTERVAL w)] ->
  trace_in Q cycle ->
  trace_in Q (start_with w cycle fuel).
Proof.
  intros Hlog Hsleep Hcycle. unfold start_with, log.
  pose proof (fun l f a => trace_in_emit Q (EvLog l f a) (Hlog l f a)).
  pose proof (trace_in_sleep Q w (WORKER_INTERVAL w) Hlog Hsleep).
  assert (trace_in Q (worker_loop w cycle fuel)).
  { induction fuel as [| fuel IH]; cbn [worker_loop]; unfold log; trace_in_auto. }
  trace_in_auto.
Qed.

Lemma trace_in_for_fold (Q : list event -> Prop) `{!Additive Q} {A B}
    (f : A -> B -> M B) (l : list A) (acc : B) :
  (forall a b, trace_in Q (f a b)) -> trace_in Q (for_fold f l acc).
Proof.
  intros Hf. revert acc. induction l as [| a l IH]; intros acc; cbn [for_fold].
  - now auto with trace_in typeclass_instances.
  - apply trace_in_bind; [typeclasses eauto | apply Hf | intros acc'; apply IH].
Qed.

Lemma trace_in_upstream_get (Q : list event -> Prop) `{!Additive Q} net url :
  Q [EvGet url] -> trace_in Q (upstream_get net url).
Proof.
  intros HQ. unfold upstream_get. pose proof (trace_in_emit Q _ HQ). trace_in_auto.
Qed.

Lemma trace_in_upstream_post (Q : list event -> Prop) `{!Additive Q} net url body :
  Q [EvPost url body] -> trace_in Q (upstream_post net url body).
Proof.
  intros HQ. unfold upstream_post. pose proof (trace_in_emit Q _ HQ). trace_in_auto.
Qed.

(** The message handler posts to the messaging service, for a truthy
    token, and does nothing else that shows. *)
Lemma trace_in_send_telegram_over (Q : list event -> Prop) `{!Additive Q} w net task :
  (forall token body, truthy token = true -> Q [EvPost (telegram_url token) body]) ->
  trace_in Q (send_telegram_over w net task).
Proof.
  intros Hpost. unfold send_telegram_over.
  destruct (negb (httpx w)); [now auto with trace_in typeclass_instances |].
  apply trace_in_bind; [typeclasses eauto | now auto with trace_in typeclass_instances | intros token0].
  apply trace_in_bind; [typeclasses eauto | now auto with trace_in typeclass_instances | intros chat0].
  apply trace_in_bind; [typeclasses eauto | now auto with trace_in typeclass_instances | intros text].
  cbv zeta.
  destruct (truthy (py_or token0 (JStr (TELEGRAM_BOT_TOKEN w)))) eqn:Htoken;
    cbn [negb orb]; [| now auto with trace_in typeclass_instances].
  destruct (negb (truthy (py_or chat0 (JStr (TELEGRAM_CHAT_ID w)))));
    [now auto with trace_in typeclass_instances |].
  pose proof (trace_in_upstream_post Q net _ _
                (Hpost (py_or token0 (JStr (TELEGRAM_BOT_TOKEN w)))
                   (telegram_message (py_or chat0 (JStr (TELEGRAM_CHAT_ID w))) text)
                   Htoken)).
  trace_in_auto.
Qed.

(** The price handler sends GETs to the price service only. *)
Lemma trace_in_fetch_crypto_prices_over (Q : list event -> Prop) `{!Additive Q}
    w net round2 items_of task :
  (forall coins, Q [EvGet (prices_url coins)]) ->
  trace_in Q (fetch_crypto_prices_over w net round2 items_of task).
Proof.
  intros Hget. unfold fetch_crypto_prices_over.
  pose proof (fun coins => trace_in_upstream_get Q net _ (Hget coins)).
  assert (forall items acc, trace_in Q (for_fold (add_price round2) items acc)).
  { intros items acc. apply trace_in_for_fold; [typeclasses eauto |].
    intros a b. unfold add_price. trace_in_auto. }
  trace_in_auto.
Qed.

(** The news handler sends GETs to the news service and logs. *)
Lemma trace_in_fetch_hackernews_over (Q : list event -> Prop) `{!Additive Q}
    w net str_lower str_chars slice_error task :
  (forall lvl fmt args, Q [EvLog lvl fmt args]) ->
  Q [EvGet topstories_url] ->
  (forall sid, Q [EvGet (item_url sid)]) ->
  trace_in Q (fetch_hackernews_over w net str_lower str_chars slice_error task).
Proof.
  intros Hlog Htop Hitem. unfold fetch_hackernews_over, log.
  pose proof (fun l f a => trace_in_emit Q (EvLog l f a) (Hlog l f a)).
  pose proof (trace_in_upstream_get Q net _ Htop).
  pose proof (fun sid => trace_in_upstream_get Q net _ (Hitem sid)).
  assert (forall kw ids acc,
            trace_in Q (for_fold (visit_story net str_lower str_chars kw 200) ids acc)).
  { intros kw ids acc. apply trace_in_for_fold; [typeclasses eauto |].
    intros sid stories. unfold visit_story. trace_in_auto. }
  trace_in_auto.
Qed.

Lemma trace_in_health_ping (Q : list event -> Prop) `{!Additive Q} w task :
  trace_in Q (health_ping w task).
Proof. unfold health_ping. trace_in_auto. Qed.

Lemma trace_in_execute_task_over (Q : list event -> Prop) `{!Additive Q}
    w net str_lower str_chars slice_error round2 items_of task :
  (forall lvl fmt args, Q [EvLog lvl fmt args]) ->
  (forall h, Q [EvInvoke h task]) ->
  (forall task_id result,
     truthy task_id = true -> Q [EvPost (result_url w task_id) result]) ->
  (forall token body, truthy token = true -> Q [EvPost (telegram_url token) body]) ->
  (forall coins, Q [EvGet (prices_url coins)]) ->
  Q [EvGet topstories_url] ->
  (forall sid, Q [EvGet (item_url sid)]) ->
  trace_in Q (execute_task_over w net str_lower str_chars slice_error round2 items_of
                task).
Proof.
  intros Hlog Hinv Hpost Htg Hprices Htop Hitem.
  unfold execute_task_over, call_handler_over, task_handlers_get, log.
  pose proof (fun id r => trace_in_report_result Q w id r (Hpost id r)).
  pose proof (fun h => trace_in_emit Q (EvInvoke h task) (Hinv h)).
  pose proof (fun l f a => trace_in_emit Q (EvLog l f a) (Hlog l f a)).
  pose proof (trace_in_send_telegram_over Q w net task Htg).
  pose proof (trace_in_fetch_crypto_prices_over Q w net round2 items_of task Hprices).
  pose proof (trace_in_fetch_hackernews_over Q w net str_lower str_chars slice_error
                task Hlog Htop Hitem).
  pose proof (trace_in_health_ping Q w task).
  trace_in_auto.
Qed.

Lemma trace_in_poll_and_execute_over (Q : list event -> Prop) `{!Additive Q}
    w net str_lower str_chars slice_error round2 items_of :
  (forall lvl fmt args, Q [EvLog lvl fmt args]) ->
  (forall task,
     trace_in Q (execute_task_over w net str_lower str_chars slice_error round2
                   items_of task)) ->
  (httpx w = true -> Q [EvGet (pending_url w)]) ->
  trace_in Q (poll_and_execute_over w net str_lower str_chars slice_error round2
                items_of).
Proof.
  intros Hlog Hexec Hget. unfold poll_and_execute_over, log.
  pose proof (fun l f a => trace_in_emit Q (EvLog l f a) (Hlog l f a)).
  destruct (httpx w); cbn [negb]; [| auto].
  assert (trace_in Q (http_get w (pending_url w))).
  { intros s. rewrite http_get_trace. auto. }
  fold (pending_url w). trace_in_auto.
Qed.

(** X1. Every request of a whole run, the handlers' own requests
    included, goes to one of six places, whatever the tasks received are
    and whatever the services answer: a GET fetches the pending tasks of
    the control plane, the list of top stories, one story or the prices;
    a POST reports to [{NEXUS_API}/api/tasks/{id}/result] for a truthy
    task id or sends a message to the messaging service for a truthy
    token. *)
Theorem run_talks_to_known_endpoints (w : world) (net : internet)
    (str_lower : string -> string) (str_chars : string -> list string)
    (slice_error : json -> exn) (round2 : float -> float)
    (items_of : gmap string json -> list (string * json)) (fuel : nat) (s : state) :
  Forall (known_endpoint w)
    (trace_of (start_over w net str_lower str_chars slice_error round2 items_of fuel s)).
Proof.
  revert s.
  change (trace_in (Forall (known_endpoint w))
            (start_over w net str_lower str_chars slice_error round2 items_of fuel)).
  apply trace_in_start_with; try typeclasses eauto.
  - intros. constructor; [exact I | constructor].
  - constructor; [exact I | constructor].
  - apply trace_in_poll_and_execute_over; try typeclasses eauto.
    + intros. constructor; [exact I | constructor].
    + intros task. apply trace_in_execute_task_over; try typeclasses eauto; intros;
        (constructor; [cbn [known_endpoint] | constructor]);
        try exact I; eauto 8.
    + intros _. constructor; [cbn [known_endpoint]; auto | constructor].
Qed.

(** One cycle over one task of each type, with a token and a chat id in
    the environment and services that answer every request with an empty
    JSON object: the requests of the handlers show between those to the
    control plane.  The news task fails on the answer and is not
    reported. *)
Lemma cycle_shows_the_handlers_traffic :
  gets (trace_of (poll_and_execute_over
                    (with_credentials (serving one_of_each) "T" "42")
                    (replying (JObj ∅)) ascii_lower ascii_chars not_subscriptable
                    (fun f => f) map_to_list fresh))
  = [pending_url idle_world; topstories_url;
     prices_url (JStr "bitcoin,ethereum,solana")]
  /\ (posts (trace_of (poll_and_execute_over
                         (with_credentials (serving one_of_each) "T" "42")
                         (replying (JObj ∅)) ascii_lower ascii_chars not_subscriptable
                         (fun f => f) map_to_list fresh))).*1
  = [result_url idle_world (JStr "p1"); telegram_url (JStr "T");
     result_url idle_world (JStr "m1"); result_url idle_world (JStr "h1")].
Proof. split; vm_compute; reflexivity. Qed.

(** X2. Without [httpx] the worker is inert: a whole run consists of log
    records and sleeps; nothing is fetched, no handler is invoked and
    nothing is posted. *)
Theorem no_httpx_no_traffic (w : world) (fuel : nat) (s : state) :
  httpx w = false ->
  Forall offline (trace_of (start w fuel s))
  /\ gets (trace_of (start w fuel s)) = []
  /\ invocations (trace_of (start w fuel s)) = []
  /\ posts (trace_of (start w fuel s)) = [].
Proof.
  intros Hx.
  assert (Hoff : Forall offline (trace_of (start w fuel s))).
  { revert s. change (trace_in (Forall offline) (start w fuel)).
    apply trace_in_start_with; try typeclasses eauto.
    - intros. repeat constructor.
    - repeat constructor.
    - intros s. rewrite (poll_without_httpx w s Hx). repeat constructor. }
  split; [exact Hoff |].
  induction Hoff as [| e t He _ IH]; [repeat split |].
  destruct e; try contradiction; exact IH.
Qed.

Lemma no_httpx_no_traffic_witness :
  httpx (with_httpx idle_world false) = false
  /\ gets (trace_of (start (with_httpx idle_world false) 3 fresh)) = [].
Proof.
  split; [reflexivity |].
  exact (proj1 (proj2 (no_httpx_no_traffic (with_httpx idle_world false) 3 fresh eq_refl))).
Defined.

(** ** Stopping *)

(** X3. A stop request that arrives during the sleep of a cycle ends the
    loop right after that cycle: the worker logs that it stopped, its
    [running] flag is cleared, and nothing more is fetched or executed,
    however many cycles were still to come. *)
Theorem stop_ends_loop_after_cycle (w : world) (fuel : nat) (s : state) :
  running (self s) = true ->
  stop_requested w (clock (state_of (poll_and_execute w s))) = true ->
  worker_loop w (poll_and_execute w) (S fuel) s =
    (Ret LoopExited,
     stopped (later (state_of (poll_and_execute w s))),
     trace_of (poll_and_execute w s)
       ++ [EvSleep (WORKER_INTERVAL w); EvLog INFO "NEXUS Worker stopped" []])
  /\ running (self (state_of (worker_loop w (poll_and_execute w) (S fuel) s))) = false.
Proof.
  intros Hrun Hstop.
  assert (Hloop : worker_loop w (poll_and_execute w) (S fuel) s =
    (Ret LoopExited,
     stopped (later (state_of (poll_and_execute w s))),
     trace_of (poll_and_execute w s)
       ++ [EvSleep (WORKER_INTERVAL w); EvLog INFO "NEXUS Worker stopped" []])).
  { rewrite worker_loop_unfold, Hrun. unfold bind at 1. rewrite guarded_run.
    destruct (no_raise_poll_and_execute w s) as [[] Hret].
    destruct (poll_and_execute w s) as [[r s1] t1].
    unfold result_of, state_of, trace_of in *. cbn [fst snd] in *. subst r.
    unfold bind at 1. rewrite sleep_run, Hstop.
    rewrite worker_loop_unfold. reflexivity. }
  split; [exact Hloop |]. rewrite Hloop. reflexivity.
Qed.

(** Five cycles were asked for; the stop request during the first sleep
    leaves one fetch. *)
Lemma stop_ends_loop_after_cycle_witness :
  worker_loop (stopping_at idle_world 1) (poll_and_execute (stopping_at idle_world 1))
    5 started =
    (Ret LoopExited,
     stopped (later (later started)),
     [EvGet (pending_url idle_world); EvSleep 30;
      EvLog INFO "NEXUS Worker stopped" []]).
Proof.
  exact (proj1 (stop_ends_loop_after_cycle (stopping_at idle_world 1) 4 started
                  eq_refl eq_refl)).
Defined.

(** ** Fetches and reports, counted *)

Lemma additive_fetchless : Additive fetchless.
Proof.
  split; unfold fetchless, gets, sleeps; [split; reflexivity |].
  intros t1 t2 [Hg1 Hs1] [Hg2 Hs2]. rewrite !omap_app.
  unfold gets, sleeps in *. rewrite Hg1, Hg2, Hs1, Hs2. split; reflexivity.
Qed.
#[local] Existing Instance additive_fetchless.

Lemma fetchless_execute_task w task : trace_in fetchless (execute_task w task).
Proof. apply trace_in_execute_task; try typeclasses eauto; intros; split; reflexivity. Qed.

Lemma poll_trace_shape w s :
  httpx w = true ->
  exists t, trace_of (poll_and_execute w s) = EvGet (pending_url w) :: t /\ fetchless t.
Proof.
  intros Hx. unfold poll_and_execute. rewrite Hx. cbn [negb].
  rewrite try_except_trace, bind_trace, http_get_trace. cbn [app].
  eexists. split; [reflexivity |].
  apply additive_app.
  - destruct (result_of (http_get w (api w [Lit "/api/tasks/pending"]) s)) as [resp | e];
      [| apply additive_nil].
    generalize (state_of (http_get w (api w [Lit "/api/tasks/pending"]) s)).
    change (trace_in fetchless
              (if (status_code resp =? 200)%Z then
                 body <- lift (resp_json resp) ;;
                 tasks <- lift (py_get body "tasks" (JArr [])) ;;
                 items <- lift (py_iter tasks) ;;
                 for_each (execute_task w) items
               else ret tt)).
    pose proof (fetchless_execute_task w). trace_in_auto.
  - match goal with |- context [result_of ?r] => destruct (result_of r) end;
      [apply additive_nil | split; reflexivity].
Qed.

Lemma balanced_execute_task w task : trace_in balanced (execute_task w task).
Proof.
  intros s. unfold balanced. destruct task as [| | | | | | m]; try (cbn; lia).
  rewrite execute_task_dict.
  destruct (hashable (task_type_of m)); [| cbn; lia].
  destruct (registry_get (task_handlers (self s)) (task_type_of m)) as [h |];
    [| cbn; lia].
  rewrite call_handler_run.
  destruct (result_of (call_handler w h (JObj m) s)) as [result | e]; [| cbn; lia].
  rewrite report_result_run.
  destruct (negb (httpx w) || negb (truthy (default JNull (m !! "id")))); cbn; lia.
Qed.

Lemma single_post_execute_task w task s :
  length (posts (trace_of (execute_task w task s))) <= 1.
Proof.
  destruct task as [| | | | | | m]; try (cbn; lia).
  rewrite execute_task_dict.
  destruct (hashable (task_type_of m)); [| cbn; lia].
  destruct (registry_get (task_handlers (self s)) (task_type_of m)) as [h |];
    [| cbn; lia].
  rewrite call_handler_run.
  destruct (result_of (call_handler w h (JObj m) s)) as [result | e]; [| cbn; lia].
  rewrite report_result_run.
  destruct (negb (httpx w) || negb (truthy (default JNull (m !! "id")))); cbn; lia.
Qed.

(** X4. In a whole run the worker never posts more results than it has
    invoked handlers, and the execution of one task posts at most one
    result: nothing is reported that was not executed, and no report is
    sent twice. *)
Theorem no_report_without_execution (w : world) (fuel : nat) (s : state) :
  length (posts (trace_of (start w fuel s)))
    <= length (invocations (trace_of (start w fuel s)))
  /\ (forall task s0, length (posts (trace_of (execute_task w task s0))) <= 1).
Proof.
  split; [| intros task s0; apply single_post_execute_task].
  revert s. change (trace_in balanced (start w fuel)).
  apply trace_in_start_with; try typeclasses eauto.
  - intros. unfold balanced. cbn. lia.
  - unfold balanced. cbn. lia.
  - apply trace_in_poll_over; try typeclasses eauto.
    + intros. unfold balanced. cbn. lia.
    + apply balanced_execute_task.
    + intros _. unfold balanced. cbn. lia.
Qed.

Lemma gets_app t1 t2 : gets (t1 ++ t2) = gets t1 ++ gets t2.
Proof. apply omap_app. Qed.

Lemma sleeps_app t1 t2 : sleeps (t1 ++ t2) = sleeps t1 ++ sleeps t2.
Proof. apply omap_app. Qed.

Lemma gets_cons e t :
  gets (e :: t) = match e with EvGet url => url :: gets t | _ => gets t end.
Proof. destruct e; reflexivity. Qed.

Lemma sleeps_cons e t :
  sleeps (e :: t) = match e with EvSleep z => z :: sleeps t | _ => sleeps t end.
Proof. destruct e; reflexivity. Qed.

(** The trace of one cycle followed by the rest of the loop. *)
Lemma worker_loop_trace w cycle fuel s :
  running (self s) = true ->
  trace_of (worker_loop w cycle (S fuel) s) =
    trace_of (guarded cycle s)
      ++ EvSleep (WORKER_INTERVAL w)
      :: (if stop_requested w (clock (state_of (guarded cycle s)))
          then [EvLog INFO "NEXUS Worker stopped" []]
          else trace_of (worker_loop w cycle fuel (later (state_of (guarded cycle s))))).
Proof.
  intros Hrun. rewrite worker_loop_unfold, Hrun, bind_trace.
  destruct (no_raise_guarded cycle s) as [[] Hret]. rewrite Hret.
  rewrite bind_trace, sleep_run.
  destruct (stop_requested w (clock (state_of (guarded cycle s)))).
  - unfold result_of, state_of at 1, trace_of at 2 3. cbn [fst snd].
    rewrite worker_loop_unfold. reflexivity.
  - reflexivity.
Qed.

(** X5. With [httpx] installed, every cycle of the loop fetches the pending
    tasks exactly once and sleeps once for the configured interval: after
    [n] cycles the run has sent [n] fetches, all to the pending-tasks URL,
    and taken [n] sleeps; and as long as nobody stops the worker, [n] is
    the number of cycles observed. *)
Theorem one_fetch_per_cycle (w : world) (fuel : nat) (s : state) :
  httpx w = true ->
  exists n,
    n <= fuel
    /\ gets (trace_of (worker_loop w (poll_and_execute w) fuel s))
       = repeat (pending_url w) n
    /\ sleeps (trace_of (worker_loop w (poll_and_execute w) fuel s))
       = repeat (WORKER_INTERVAL w) n
    /\ ((forall c, stop_requested w c = false) -> running (self s) = true -> n = fuel).
Proof.
  intros Hx. revert s. induction fuel as [| fuel IH]; intros s.
  - exists 0. rewrite worker_loop_unfold.
    destruct (running (self s)); repeat split; reflexivity.
  - destruct (running (self s)) eqn:Hrun.
    + rewrite (worker_loop_trace w _ fuel s Hrun).
      pose proof (keeps_guarded running (poll_and_execute w)
                    (keeps_poll_and_execute w running) s) as Hkeep.
      destruct (poll_trace_shape w s Hx) as (t & Ht & Hg & Hs).
      assert (Htr : trace_of (guarded (poll_and_execute w) s)
                    = EvGet (pending_url w) :: t).
      { unfold guarded. rewrite try_except_trace.
        destruct (no_raise_poll_and_execute w s) as [[] Hret].
        rewrite Hret, Ht, app_nil_r. reflexivity. }
      rewrite Htr. cbn [app].
      rewrite gets_cons, sleeps_cons, gets_app, sleeps_app, Hg, Hs. cbn [app].
      rewrite gets_cons, sleeps_cons.
      destruct (stop_requested w (clock (state_of (guarded (poll_and_execute w) s))))
        eqn:Hstop.
      * exists 1. repeat split; try reflexivity; [lia |].
        intros Hnostop. rewrite Hnostop in Hstop. discriminate.
      * destruct (IH (later (state_of (guarded (poll_and_execute w) s))))
          as (n & Hn & Hgets & Hsleeps & Hfull).
        exists (S n). rewrite Hgets, Hsleeps.
        repeat split; try reflexivity; [lia |].
        intros Hnostop _. f_equal. apply Hfull; [exact Hnostop |].
        cbn [later self]. rewrite Hkeep. exact Hrun.
    + exists 0. rewrite worker_loop_unfold, Hrun.
      repeat split; try reflexivity; [lia |].
      intros _ Habs. discriminate.
Qed.

(** Three cycles against an idle control plane. *)
Lemma one_fetch_per_cycle_witness :
  exists n,
    n <= 3
    /\ gets (trace_of (worker_loop idle_world (poll_and_execute idle_world) 3 started))
       = repeat (pending_url idle_world) n
    /\ sleeps (trace_of (worker_loop idle_world (poll_and_execute idle_world) 3 started))
       = repeat 30%Z n
    /\ ((forall c, stop_requested idle_world c = false) ->
        running (self started) = true -> n = 3).
Proof. exact (one_fetch_per_cycle idle_world 3 started eq_refl). Defined.

(** ** What the control plane may answer *)

(** A poll whose fetch is answered with status 200. *)
Lemma poll_on_200 w s resp :
  httpx w = true -> client_get w (clock s) = inr resp -> status_code resp = 200%Z ->
  poll_and_execute w s =
    match pending_items resp with
    | inl e =>
        (Ret tt, later s,
         [EvGet (pending_url w); EvLog DEBUG "Daemon not reachable: %s" [ArgExn e]])
    | inr items =>
        match for_each (execute_task w) items (later s) with
        | (Ret _, s', t) => (Ret tt, s', EvGet (pending_url w) :: t)
        | (Raise e, s', t) =>
            (Ret tt, s',
             EvGet (pending_url w)
               :: t ++ [EvLog DEBUG "Daemon not reachable: %s" [ArgExn e]])
        end
    end.
Proof.
  intros Hx Hget Hst. unfold poll_and_execute, pending_items. rewrite Hx.
  cbv beta iota zeta delta [negb try_except bind http_get tick emit lift log].
  cbn [app]. rewrite Hget. cbv beta iota zeta delta [ret raise].
  rewrite Hst. cbn [Z.eqb Pos.eqb]. fold (later s). fold (pending_url w).
  destruct (resp_json resp) as [e | body]; [reflexivity |].
  destruct (py_get body "tasks" (JArr [])) as [e | tasks]; [reflexivity |].
  destruct (py_iter tasks) as [e | items]; [reflexivity |].
  destruct (for_each (execute_task w) items (later s)) as [[[[] | e] s'] t];
    reflexivity.
Qed.

Lemma execute_task_on_bad_item w bad s :
  is_task bad = false ->
  execute_task w bad s = (Raise (not_a_task_error bad), s, []).
Proof.
  destruct bad as [| | | | | | m]; try reflexivity. cbn [is_task not_a_task_error].
  intros Hh. rewrite execute_task_dict, Hh. reflexivity.
Qed.

Lemma for_each_bad_item w good bad rest s :
  forallb is_task good = true -> is_task bad = false ->
  for_each (execute_task w) (good ++ bad :: rest) s =
    (Raise (not_a_task_error bad), (in_order w good s).1, (in_order w good s).2).
Proof.
  intros Hgood Hbad. revert s. induction good as [| v good IH]; intros s.
  - cbn [app for_each in_order fst snd]. unfold bind.
    rewrite (execute_task_on_bad_item w bad s Hbad). reflexivity.
  - cbn [forallb] in Hgood. apply andb_prop in Hgood as [Hv Hgood].
    pose proof (execute_task_returns w v s Hv) as Hr.
    cbn [app for_each in_order]. unfold bind.
    destruct (execute_task w v s) as [[r s1] t1].
    unfold state_of, trace_of in *. cbn [fst snd] in *.
    injection Hr as ->. rewrite (IH Hgood s1).
    destruct (in_order w good s1) as [s' t]. reflexivity.
Qed.

(** X6. A 200 response that is not what the worker expects is skipped like
    an unreachable daemon: when the body is not JSON, is not an object, or
    its ["tasks"] cannot be iterated, the poll executes nothing, logs the
    exception at debug level as [Daemon not reachable] and returns. *)
Theorem malformed_response_is_skipped (w : world) (s : state) (resp : response)
    (e : exn) :
  httpx w = true ->
  client_get w (clock s) = inr resp ->
  status_code resp = 200%Z ->
  resp_json resp = inl e
  \/ (exists v, resp_json resp = inr v
                /\ (forall m, v <> JObj m) /\ e = AttributeError v "get")
  \/ (exists m v, resp_json resp = inr (JObj m) /\ m !! "tasks" = Some v
                  /\ hashable v = true
                  /\ (forall x, v <> JStr x) /\ e = TypeError_not_iterable v) ->
  poll_and_execute w s =
    (Ret tt, later s,
     [EvGet (pending_url w); EvLog DEBUG "Daemon not reachable: %s" [ArgExn e]]).
Proof.
  intros Hx Hget Hst Hbad. rewrite (poll_on_200 w s resp Hx Hget Hst).
  assert (Hitems : pending_items resp = inl e).
  { unfold pending_items.
    destruct Hbad as [-> | [(v & -> & Hv & ->) | (m & v & -> & Hm & Hh & Hstr & ->)]].
    - reflexivity.
    - destruct v; try reflexivity. destruct (Hv m). reflexivity.
    - cbn [py_get]. rewrite Hm. cbn [default from_option id].
      destruct v; try discriminate; try reflexivity. destruct (Hstr s0). reflexivity. }
  rewrite Hitems. reflexivity.
Qed.

(** The control plane answers with [{"tasks": null}]. *)
Lemma malformed_response_is_skipped_witness :
  poll_and_execute (answering (ok_json (JObj {[ "tasks" := JNull ]}))) fresh =
    (Ret tt, later fresh,
     [EvGet (pending_url (answering (ok_json (JObj {[ "tasks" := JNull ]}))));
      EvLog DEBUG "Daemon not reachable: %s"
        [ArgExn (Exn "TypeError" "'NoneType' object is not iterable")]]).
Proof.
  apply (malformed_response_is_skipped
           (answering (ok_json (JObj {[ "tasks" := JNull ]}))) fresh
           (ok_json (JObj {[ "tasks" := JNull ]}))
           (Exn "TypeError" "'NoneType' object is not iterable"));
    try reflexivity.
  right. right. exists {[ "tasks" := JNull ]}, JNull.
  repeat split; try reflexivity. intros x. discriminate.
Defined.

(** X7. A 200 response without work costs one request and nothing else:
    when the body is an object that has no ["tasks"], or whose ["tasks"]
    is an empty list, string or object, the trace of the poll is the fetch
    alone. *)
Theorem no_tasks_no_work (w : world) (s : state) (resp : response)
    (m : gmap string json) :
  httpx w = true ->
  client_get w (clock s) = inr resp ->
  status_code resp = 200%Z ->
  resp_json resp = inr (JObj m) ->
  m !! "tasks" = None \/ m !! "tasks" = Some (JArr []) \/ m !! "tasks" = Some (JStr "")
  \/ m !! "tasks" = Some (JObj ∅) ->
  poll_and_execute w s = (Ret tt, later s, [EvGet (pending_url w)]).
Proof.
  intros Hx Hget Hst Hjson Hm. rewrite (poll_on_200 w s resp Hx Hget Hst).
  assert (Hitems : pending_items resp = inr []).
  { unfold pending_items. rewrite Hjson. cbn [py_get].
    destruct Hm as [-> | [-> | [-> | ->]]]; reflexivity. }
  rewrite Hitems. reflexivity.
Qed.

(** The control plane answers with an empty object. *)
Lemma no_tasks_no_work_witness :
  poll_and_execute (answering (ok_json (JObj ∅))) fresh =
    (Ret tt, later fresh, [EvGet (pending_url (answering (ok_json (JObj ∅))))]).
Proof.
  apply (no_tasks_no_work (answering (ok_json (JObj ∅))) fresh (ok_json (JObj ∅)) ∅);
    try reflexivity.
  left. reflexivity.
Defined.

(** X8. An item of the batch that is not a task (not a dictionary, or a
    dictionary whose type cannot be hashed) ends the batch: the tasks
    before it have been executed in order, the items after it are never
    looked at, and the exception is logged at debug level as [Daemon not
    reachable]. *)
Theorem bad_item_ends_batch (w : world) (s : state) (resp : response)
    (good : list json) (bad : json) (rest : list json) :
  httpx w = true ->
  client_get w (clock s) = inr resp ->
  status_code resp = 200%Z ->
  pending_items resp = inr (good ++ bad :: rest) ->
  forallb is_task good = true ->
  is_task bad = false ->
  poll_and_execute w s =
    (Ret tt, (in_order w good (later s)).1,
     EvGet (pending_url w)
       :: (in_order w good (later s)).2
       ++ [EvLog DEBUG "Daemon not reachable: %s" [ArgExn (not_a_task_error bad)]])
  /\ (invocations (trace_of (poll_and_execute w s))).*2
     = List.filter (known (task_handlers (self s))) good.
Proof.
  intros Hx Hget Hst Hitems Hgood Hbad.
  assert (Hpoll : poll_and_execute w s =
    (Ret tt, (in_order w good (later s)).1,
     EvGet (pending_url w)
       :: (in_order w good (later s)).2
       ++ [EvLog DEBUG "Daemon not reachable: %s" [ArgExn (not_a_task_error bad)]])).
  { rewrite (poll_on_200 w s resp Hx Hget Hst), Hitems.
    rewrite (for_each_bad_item w good bad rest (later s) Hgood Hbad). reflexivity. }
  split; [exact Hpoll |].
  rewrite Hpoll. unfold trace_of. cbn [snd].
  change (EvGet (pending_url w) :: ?t) with ([EvGet (pending_url w)] ++ t).
  rewrite !invocations_app. cbn [invocations omap app]. rewrite app_nil_r.
  exact (in_order_invocations w good (later s) Hgood).
Qed.

(** A health ping, then the string ["oops"], then another health ping. *)
Lemma bad_item_ends_batch_witness :
  (invocations (trace_of (poll_and_execute
     (serving [task "a" "health_ping"; JStr "oops"; task "c" "health_ping"])
     fresh))).*2
  = [task "a" "health_ping"].
Proof.
  rewrite (proj2 (bad_item_ends_batch
     (serving [task "a" "health_ping"; JStr "oops"; task "c" "health_ping"])
     fresh
     {| status_code := 200;
        resp_json := inr (JObj {[ "tasks" := JArr [task "a" "health_ping"; JStr "oops";
                                                   task "c" "health_ping"] ]}) |}
     [task "a" "health_ping"] (JStr "oops") [task "c" "health_ping"]
     eq_refl eq_refl eq_refl eq_refl eq_refl eq_refl)).
  vm_compute. reflexivity.
Defined.

(** ** The poll as a whole, and the start of the process *)

(** X9. A poll never raises, whatever the control plane, the handlers and
    the result endpoint do, and it leaves the worker object as it found
    it: nothing of a cycle is remembered in the next one. *)
Theorem poll_leaves_no_mark (w : world) (s : state) :
  exists s' t, poll_and_execute w s = (Ret tt, s', t) /\ self s' = self s.
Proof.
  destruct (no_raise_poll_and_execute w s) as [[] Hret].
  pose proof (keeps_poll_and_execute w running s) as Hrun.
  pose proof (keeps_poll_and_execute w task_handlers s) as Hreg.
  destruct (poll_and_execute w s) as [[r s'] t].
  unfold result_of, state_of in *. cbn [fst snd] in *. subst r.
  exists s', t. split; [reflexivity |].
  destruct (self s'), (self s). cbn in *. congruence.
Qed.

(** X10. An error that a handler returns is a result like any other.  A
    [send_telegram] task for which neither the task nor the environment
    supplies both a token and a chat id contacts nobody, and its error
    payload is posted to the control plane as the task's result. *)
Theorem returned_error_is_reported (w : world) (m : gmap string json) (s : state)
    (task_id : string) :
  httpx w = true ->
  task_handlers (self s) = task_handlers init ->
  m !! "type" = Some (JStr "send_telegram") ->
  m !! "id" = Some (JStr task_id) ->
  task_id <> "" ->
  truthy (py_or (default JNull (m !! "token")) (JStr (TELEGRAM_BOT_TOKEN w))) = false
  \/ truthy (py_or (default JNull (m !! "chat_id")) (JStr (TELEGRAM_CHAT_ID w))) = false ->
  send_telegram w (JObj m) s =
    (Ret {[ "error" := JStr "TELEGRAM_BOT_TOKEN and TELEGRAM_CHAT_ID required" ]}, s, [])
  /\ execute_task w (JObj m) s =
       (Ret tt, later s,
        [EvLog INFO "Executing task: %s" [ArgVal (JStr "send_telegram")];
         EvInvoke H_send_telegram (JObj m);
         EvPost (result_url w (JStr task_id))
           {[ "error" := JStr "TELEGRAM_BOT_TOKEN and TELEGRAM_CHAT_ID required" ]}]).
Proof.
  intros Hx Hreg Hty Hid Hne Hcreds.
  assert (Hsend : send_telegram w (JObj m) s =
    (Ret {[ "error" := JStr "TELEGRAM_BOT_TOKEN and TELEGRAM_CHAT_ID required" ]}, s, [])).
  { unfold send_telegram. rewrite Hx. change (negb true) with false.
    cbv beta iota zeta delta [bind lift py_get ret].
    cbn [app].
    assert (Hor : negb (truthy (py_or (default JNull (m !! "token"))
                                  (JStr (TELEGRAM_BOT_TOKEN w))))
                  || negb (truthy (py_or (default JNull (m !! "chat_id"))
                                     (JStr (TELEGRAM_CHAT_ID w)))) = true).
    { destruct Hcreds as [-> | ->]; [reflexivity | apply orb_true_r]. }
    rewrite Hor. reflexivity. }
  split; [exact Hsend |].
  assert (Htype : task_type_of m = JStr "send_telegram").
  { unfold task_type_of. rewrite Hty. reflexivity. }
  assert (Hh : registry_get (task_handlers (self s)) (task_type_of m)
               = Some H_send_telegram).
  { rewrite Htype, Hreg. reflexivity. }
  assert (Hcall : call_handler w H_send_telegram (JObj m) s =
    (Ret {[ "error" := JStr "TELEGRAM_BOT_TOKEN and TELEGRAM_CHAT_ID required" ]}, s,
     [EvInvoke H_send_telegram (JObj m)])).
  { unfold call_handler, bind, emit. rewrite Hsend. reflexivity. }
  rewrite (execute_task_handler_returns w m H_send_telegram _ s s _ Hh Hcall).
  rewrite Htype, report_result_run, Hx, Hid. cbn [default from_option id negb orb truthy].
  assert (Hs : String.eqb task_id "" = false).
  { apply String.eqb_neq. exact Hne. }
  rewrite Hs. reflexivity.
Qed.

(** A message task without credentials, in a worker without credentials. *)
Lemma returned_error_is_reported_witness :
  posts (trace_of (execute_task idle_world (JObj bare_message) fresh)) =
    [(result_url idle_world (JStr "m1"),
      {[ "error" := JStr "TELEGRAM_BOT_TOKEN and TELEGRAM_CHAT_ID required" ]})].
Proof.
  assert (Hty : bare_message !! "type" = Some (JStr "send_telegram"))
    by (vm_compute; reflexivity).
  assert (Hid : bare_message !! "id" = Some (JStr "m1")) by (vm_compute; reflexivity).
  assert (Hne : "m1" <> "") by discriminate.
  rewrite (proj2 (returned_error_is_reported idle_world bare_message fresh "m1"
                    eq_refl eq_refl Hty Hid Hne (or_introl eq_refl))).
  reflexivity.
Defined.

(** X11. The process polls as soon as it starts: with [httpx] installed,
    the first thing [main] does after logging its start is to fetch the
    pending tasks, before any sleep; and as long as nobody stops the
    worker, [main] is still running after any number of cycles. *)
Theorem main_polls_at_once (w : world) (fuel : nat) :
  httpx w = true ->
  (exists t,
     trace_of (main w (S fuel)) =
       EvLog INFO "NEXUS Worker started — polling every %ds" [ArgInt (WORKER_INTERVAL w)]
         :: EvGet (pending_url w) :: t)
  /\ ((forall c, stop_requested w c = false) ->
      result_of (main w fuel) = Ret FuelExhausted).
Proof.
  intros Hx. split.
  - unfold main, start, start_with. rewrite !bind_trace.
    cbn [set_running log emit trace_of result_of state_of fst snd app].
    destruct (worker_loop_starts_with_get w fuel
                {| self := {| running := true; task_handlers := task_handlers init |};
                   clock := 0 |} Hx eq_refl) as [t Ht].
    exists t. f_equal. exact Ht.
  - intros Hnostop. apply start_runs_on. exact Hnostop.
Qed.

(** The first events of the process against an idle control plane. *)
Lemma main_polls_at_once_witness :
  exists t,
    trace_of (main idle_world 1) =
      EvLog INFO "NEXUS Worker started — polling every %ds" [ArgInt 30]
        :: EvGet (pending_url idle_world) :: t.
Proof. exact (proj1 (main_polls_at_once idle_world 0 eq_refl)). Defined.

(** ** The message handler *)

(** The run of [send_telegram] on a dictionary, with [httpx] installed. *)
Lemma send_telegram_over_run w net (m : gmap string json) s :
  httpx w = true ->
  send_telegram_over w net (JObj m) s =
    if truthy (telegram_token w m) && truthy (telegram_chat_id w m) then
      match net_post net (clock s) (telegram_url (telegram_token w m))
              (telegram_message (telegram_chat_id w m) (default (JStr "") (m !! "text")))
      with
      | inl e =>
          (Raise e, later s,
           [EvPost (telegram_url (telegram_token w m))
              (telegram_message (telegram_chat_id w m) (default (JStr "") (m !! "text")))])
      | inr resp =>
          (match resp_json resp with
           | inl e => Raise e
           | inr body =>
               match py_get body "ok" (JBool false) with
               | inl e => Raise e
               | inr ok => Ret {[ "ok" := ok ]}
               end
           end,
           later s,
           [EvPost (telegram_url (telegram_token w m))
              (telegram_message (telegram_chat_id w m) (default (JStr "") (m !! "text")))])
      end
    else (Ret credentials_required, s, []).
Proof.
  intros Hx. unfold send_telegram_over. rewrite Hx. change (negb true) with false.
  cbv beta iota zeta delta [bind lift py_get ret upstream_post tick emit].
  cbn [app]. fold (telegram_token w m) (telegram_chat_id w m) (later s).
  destruct (truthy (telegram_token w m)); cbn [negb orb andb]; [| reflexivity].
  destruct (truthy (telegram_chat_id w m)); cbn [negb]; [| reflexivity].
  destruct (net_post net (clock s) _ _) as [e | resp]; [reflexivity |].
  cbv beta iota zeta delta [raise].
  destruct (resp_json resp) as [e | body]; [reflexivity |].
  destruct body; reflexivity.
Qed.

(** X12. [send_telegram] sends a message only when it has both a token
    and a chat id, each taken from the task when the task has a truthy
    one and from the environment otherwise.  With both, it sends exactly
    one request, to that token's [sendMessage] URL, carrying the chat id,
    the task's text (empty by default) and the Markdown parse mode; with
    either missing it contacts nobody and returns its error payload. *)
Theorem telegram_needs_both_credentials (w : world) (net : internet)
    (m : gmap string json) (s : state) :
  httpx w = true ->
  (truthy (telegram_token w m) = true -> truthy (telegram_chat_id w m) = true ->
   trace_of (send_telegram_over w net (JObj m) s) =
     [EvPost (telegram_url (telegram_token w m))
        (telegram_message (telegram_chat_id w m) (default (JStr "") (m !! "text")))])
  /\ (truthy (telegram_token w m) = false \/ truthy (telegram_chat_id w m) = false ->
      send_telegram_over w net (JObj m) s = (Ret credentials_required, s, []))
  /\ (forall token, m !! "token" = Some token -> truthy token = true ->
      telegram_token w m = token)
  /\ (m !! "token" = None -> telegram_token w m = JStr (TELEGRAM_BOT_TOKEN w)).
Proof.
  intros Hx. rewrite (send_telegram_over_run w net m s Hx). repeat apply conj.
  - intros -> ->. cbn [andb].
    destruct (net_post net (clock s) _ _); reflexivity.
  - intros [-> | ->]; [reflexivity | rewrite andb_false_r; reflexivity].
  - intros token Hm Ht. unfold telegram_token, py_or. rewrite Hm.
    cbn [default from_option id]. rewrite Ht. reflexivity.
  - intros Hm. unfold telegram_token, py_or. rewrite Hm. reflexivity.
Qed.

(** A task with its own token, in a worker that knows the chat id. *)
Lemma telegram_needs_both_credentials_witness :
  trace_of (send_telegram_over (with_credentials idle_world "" "42")
              (replying (JObj {[ "ok" := JBool true ]})) (JObj own_token_message) fresh) =
    [EvPost (telegram_url (JStr "task-token"))
       (telegram_message (JStr "42") (JStr "hello"))].
Proof.
  rewrite (proj1 (telegram_needs_both_credentials (with_credentials idle_world "" "42")
                    (replying (JObj {[ "ok" := JBool true ]})) own_token_message fresh
                    eq_refl))
    by (vm_compute; reflexivity).
  vm_compute. reflexivity.
Defined.

(** X13. The result of a message that was sent is the service's own
    verdict: [{"ok": v}] where [v] is the ["ok"] of the reply, or [False]
    when the reply has none.  The HTTP status of the reply is not looked
    at; a reply whose body is not a JSON object makes the handler raise. *)
Theorem telegram_result_is_the_verdict (w : world) (net : internet)
    (m : gmap string json) (s : state) (resp : response) :
  httpx w = true ->
  truthy (telegram_token w m) = true ->
  truthy (telegram_chat_id w m) = true ->
  net_post net (clock s) (telegram_url (telegram_token w m))
    (telegram_message (telegram_chat_id w m) (default (JStr "") (m !! "text")))
  = inr resp ->
  (forall body, resp_json resp = inr (JObj body) ->
     result_of (send_telegram_over w net (JObj m) s)
     = Ret {[ "ok" := default (JBool false) (body !! "ok") ]})
  /\ (forall v, resp_json resp = inr v -> (forall body, v <> JObj body) ->
        result_of (send_telegram_over w net (JObj m) s) = Raise (AttributeError v "get"))
  /\ (forall e, resp_json resp = inl e ->
        result_of (send_telegram_over w net (JObj m) s) = Raise e).
Proof.
  intros Hx Ht Hc Hpost. rewrite (send_telegram_over_run w net m s Hx), Ht, Hc.
  cbn [andb]. rewrite Hpost. unfold result_of. cbn [fst]. repeat apply conj.
  - intros body ->. reflexivity.
  - intros v -> Hv. destruct v; try reflexivity. destruct (Hv m0). reflexivity.
  - intros e ->. reflexivity.
Qed.

(** A reply with status 401 and the body [{"ok": false}]. *)
Lemma telegram_result_is_the_verdict_witness :
  result_of (send_telegram_over (with_credentials idle_world "" "42")
               (replying_with 401 (JObj {[ "ok" := JBool false ]}))
               (JObj own_token_message) fresh)
  = Ret {[ "ok" := JBool false ]}.
Proof.
  assert (Ht : truthy (telegram_token (with_credentials idle_world "" "42")
                         own_token_message) = true) by (vm_compute; reflexivity).
  assert (Hc : truthy (telegram_chat_id (with_credentials idle_world "" "42")
                         own_token_message) = true) by (vm_compute; reflexivity).
  rewrite (proj1 (telegram_result_is_the_verdict (with_credentials idle_world "" "42")
                    (replying_with 401 (JObj {[ "ok" := JBool false ]}))
                    own_token_message fresh
                    {| status_code := 401;
                       resp_json := inr (JObj {[ "ok" := JBool false ]}) |}
                    eq_refl Ht Hc eq_refl)
             {[ "ok" := JBool false ]} eq_refl).
  reflexivity.
Defined.

(** ** The price handler *)

Lemma add_price_ok round2 k info entry prices s :
  price_entry round2 info = inr entry ->
  add_price round2 (k, info) prices s = (Ret (<[k := JObj entry]> prices), s, []).
Proof. intros H. unfold add_price, bind, lift. cbn [fst snd]. rewrite H. reflexivity. Qed.

Lemma add_price_fails round2 k info e prices s :
  price_entry round2 info = inl e ->
  add_price round2 (k, info) prices s = (Raise e, s, []).
Proof. intros H. unfold add_price, bind, lift. cbn [fst snd]. rewrite H. reflexivity. Qed.

Lemma price_loop_ok round2 items acc s :
  Forall (fun it => exists entry, price_entry round2 it.2 = inr entry) items ->
  for_fold (add_price round2) items acc s =
    (Ret (foldl (fun p it => <[it.1 := price_json round2 it.2]> p) acc items), s, []).
Proof.
  intros Hall. revert acc. induction Hall as [| [k info] items [entry He] _ IH];
    intros acc; [reflexivity |].
  cbn [for_fold foldl fst snd]. unfold bind.
  rewrite (add_price_ok round2 k info entry acc s He), IH.
  unfold price_json. cbn [snd] in He. rewrite He. reflexivity.
Qed.

Lemma price_loop_fails round2 good k info rest e acc s :
  Forall (fun it => exists entry, price_entry round2 it.2 = inr entry) good ->
  price_entry round2 info = inl e ->
  for_fold (add_price round2) (good ++ (k, info) :: rest) acc s = (Raise e, s, []).
Proof.
  intros Hgood Hbad. revert acc. induction Hgood as [| [k0 i0] good [entry He] _ IH];
    intros acc.
  - cbn [app for_fold]. unfold bind.
    rewrite (add_price_fails round2 k info e acc s Hbad). reflexivity.
  - cbn [app for_fold]. unfold bind.
    rewrite (add_price_ok round2 k0 i0 entry acc s He), IH. reflexivity.
Qed.

(** A list splits at its first item that fails a test, if it has one. *)
Lemma first_failure {A} (P : A -> Prop) (l : list A) :
  (forall x, P x \/ ~ P x) ->
  Forall P l \/ exists good bad rest, l = good ++ bad :: rest /\ Forall P good /\ ~ P bad.
Proof.
  intros Hdec. induction l as [| x l IH]; [left; constructor |].
  destruct (Hdec x) as [Hx | Hx].
  - destruct IH as [Hall | (good & bad & rest & -> & Hgood & Hbad)].
    + left. constructor; assumption.
    + right. exists (x :: good), bad, rest. repeat split; [constructor |]; assumption.
  - right. exists [], x, l. repeat split; [constructor | assumption].
Qed.

(** Insertions in iteration order build the table of the items. *)
Lemma foldl_insert_fmap (g : json -> json) (items : list (string * json)) :
  NoDup (items.*1) ->
  foldl (fun p it => <[it.1 := g it.2]> p) (∅ : gmap string json) items
  = g <$> (list_to_map items : gmap string json).
Proof.
  induction items as [| [k v] items IH] using rev_ind; intros Hnd.
  - cbn. rewrite fmap_empty. reflexivity.
  - rewrite fmap_app in Hnd. apply NoDup_app in Hnd as (Hnd & Hk & _).
    rewrite foldl_app. cbn [foldl fst snd]. rewrite (IH Hnd).
    rewrite list_to_map_snoc, fmap_insert; [reflexivity |].
    intros Hin. apply (Hk k Hin). cbn. left.
Qed.

(** The run of [fetch_crypto_prices] up to the loop over the coins. *)
Lemma fetch_crypto_prices_over_run w net round2 items_of (m data : gmap string json)
    s resp :
  httpx w = true ->
  net_get net (clock s) (prices_url (coins_of m)) = inr resp ->
  resp_json resp = inr (JObj data) ->
  fetch_crypto_prices_over w net round2 items_of (JObj m) s =
    match for_fold (add_price round2) (items_of data) ∅ (later s) with
    | (Ret prices, s', t) =>
        (Ret (list_to_map [("prices", JObj prices);
                           ("fetched_at", JStr (utcnow_isoformat w (clock s')))]),
         s', EvGet (prices_url (coins_of m)) :: t)
    | (Raise e, s', t) => (Raise e, s', EvGet (prices_url (coins_of m)) :: t)
    end.
Proof.
  intros Hx Hget Hjson. unfold fetch_crypto_prices_over. rewrite Hx.
  change (negb true) with false.
  cbv beta iota zeta delta [bind lift py_get ret upstream_get tick emit get_state].
  cbn [app]. fold (coins_of m) (later s). rewrite Hget.
  cbv beta iota zeta delta [ret]. rewrite Hjson. cbn [py_items].
  destruct (for_fold (add_price round2) (items_of data) ∅ (later s))
    as [[[prices | e] s'] t]; [| reflexivity].
  rewrite app_nil_r. reflexivity.
Qed.

Lemma items_of_facts (items_of : gmap string json -> list (string * json))
    (data : gmap string json) :
  items_of data ≡ₚ map_to_list data ->
  NoDup ((items_of data).*1) /\ list_to_map (items_of data) = data.
Proof.
  intros Hperm. assert (Hnd : NoDup ((items_of data).*1)).
  { rewrite Hperm. apply NoDup_fst_map_to_list. }
  split; [exact Hnd |].
  rewrite (list_to_map_proper _ _ Hnd Hperm). apply list_to_map_to_list.
Qed.

(** The run of [fetch_crypto_prices] when every entry can be built. *)
Lemma price_table_run w net round2 items_of (m data : gmap string json) s resp :
  httpx w = true ->
  net_get net (clock s) (prices_url (coins_of m)) = inr resp ->
  resp_json resp = inr (JObj data) ->
  items_of data ≡ₚ map_to_list data ->
  map_Forall (fun _ info => exists entry, price_entry round2 info = inr entry) data ->
  fetch_crypto_prices_over w net round2 items_of (JObj m) s =
    (Ret (list_to_map [("prices", JObj (price_json round2 <$> data));
                       ("fetched_at", JStr (utcnow_isoformat w (S (clock s))))]),
     later s, [EvGet (prices_url (coins_of m))]).
Proof.
  intros Hx Hget Hjson Hperm Hall.
  destruct (items_of_facts items_of data Hperm) as [Hnd Hmap].
  rewrite (fetch_crypto_prices_over_run w net round2 items_of m data s resp Hx Hget Hjson).
  rewrite price_loop_ok.
  - rewrite (foldl_insert_fmap (price_json round2) _ Hnd), Hmap. reflexivity.
  - apply Forall_forall. intros [k info] Hin. cbn [snd].
    apply (Hall k info). apply elem_of_map_to_list. rewrite <- Hperm. exact Hin.
Qed.

(** X14. One price entry per coin of the reply.  When the reply is a JSON
    object and the entry of each of its coins can be built, the handler
    sends one request, for the coins the task names (three by default),
    and returns under ["prices"] a table with exactly the coins of the
    reply, each with the reply's ["usd"] ([None] when it has none) and its
    24-hour change rounded to two places (0 when it has none). *)
Theorem one_price_per_coin (w : world) (net : internet) (round2 : float -> float)
    (items_of : gmap string json -> list (string * json))
    (m data : gmap string json) (s : state) (resp : response) :
  httpx w = true ->
  net_get net (clock s) (prices_url (coins_of m)) = inr resp ->
  resp_json resp = inr (JObj data) ->
  items_of data ≡ₚ map_to_list data ->
  map_Forall (fun _ info => exists entry, price_entry round2 info = inr entry) data ->
  fetch_crypto_prices_over w net round2 items_of (JObj m) s =
    (Ret (list_to_map [("prices", JObj (price_json round2 <$> data));
                       ("fetched_at", JStr (utcnow_isoformat w (S (clock s))))]),
     later s, [EvGet (prices_url (coins_of m))])
  /\ dom (price_json round2 <$> data) = dom data
  /\ (forall coin info rounded,
        data !! coin = Some (JObj info) ->
        py_round2 round2 (default (JInt 0) (info !! "usd_24h_change")) = inr rounded ->
        (price_json round2 <$> data) !! coin =
          Some (JObj (list_to_map [("usd", default JNull (info !! "usd"));
                                   ("change_24h", rounded)]))).
Proof.
  intros Hx Hget Hjson Hperm Hall. repeat apply conj.
  - exact (price_table_run w net round2 items_of m data s resp Hx Hget Hjson Hperm Hall).
  - apply dom_fmap_L.
  - intros coin info rounded Hcoin Hround. rewrite lookup_fmap, Hcoin.
    cbn [fmap option_fmap option_map]. unfold price_json, price_entry. cbn [py_get].
    rewrite Hround. reflexivity.
Qed.

(** The price of one coin, for the default coins. *)
Lemma one_price_per_coin_witness :
  result_of (fetch_crypto_prices_over idle_world (replying (JObj bitcoin_only))
               (fun f => f) map_to_list (JObj price_task) fresh)
  = Ret (list_to_map
           [("prices",
             JObj {[ "bitcoin" := JObj (list_to_map [("usd", JInt 60000);
                                                     ("change_24h", JInt 2)]) ]});
            ("fetched_at", JStr "2024-01-01T00:00:00")]).
Proof.
  assert (Hall : map_Forall
            (fun _ info => exists entry, price_entry (fun f => f) info = inr entry)
            bitcoin_only).
  { apply map_Forall_singleton. eexists. reflexivity. }
  rewrite (proj1 (one_price_per_coin idle_world (replying (JObj bitcoin_only))
                    (fun f => f) map_to_list price_task bitcoin_only fresh
                    (ok_json (JObj bitcoin_only))
                    eq_refl eq_refl eq_refl (Permutation_refl _) Hall)).
  vm_compute. reflexivity.
Defined.

(** X15. The price handler does not recognise a refusal.  It never looks
    at the HTTP status, so whenever the reply's JSON object holds objects
    that carry neither ["usd"] nor ["usd_24h_change"] (as the body of an
    error reply does), it returns normally, with a price of [None] and a
    change of 0 under each key of the reply. *)
Theorem refusal_becomes_a_price (w : world) (net : internet) (round2 : float -> float)
    (items_of : gmap string json -> list (string * json))
    (m data : gmap string json) (s : state) (resp : response) :
  httpx w = true ->
  net_get net (clock s) (prices_url (coins_of m)) = inr resp ->
  resp_json resp = inr (JObj data) ->
  items_of data ≡ₚ map_to_list data ->
  map_Forall (fun _ v => exists info, v = JObj info /\ info !! "usd" = None
                                      /\ info !! "usd_24h_change" = None) data ->
  fetch_crypto_prices_over w net round2 items_of (JObj m) s =
    (Ret (list_to_map [("prices", JObj ((fun _ => no_price) <$> data));
                       ("fetched_at", JStr (utcnow_isoformat w (S (clock s))))]),
     later s, [EvGet (prices_url (coins_of m))]).
Proof.
  intros Hx Hget Hjson Hperm Hall.
  assert (Hentry : forall k v, data !! k = Some v -> price_json round2 v = no_price).
  { intros k v Hk. destruct (Hall k v Hk) as (info & -> & Husd & Hchange).
    unfold price_json, price_entry. cbn [py_get]. rewrite Husd, Hchange. reflexivity. }
  rewrite (price_table_run w net round2 items_of m data s resp Hx Hget Hjson Hperm).
  - assert (Heq : price_json round2 <$> data = (fun _ => no_price) <$> data)
      by (apply map_fmap_ext; exact Hentry).
    rewrite Heq. reflexivity.
  - intros k v Hk. specialize (Hentry k v Hk). unfold price_json in Hentry.
    destruct (price_entry round2 v) as [e | entry]; [discriminate | eauto].
Qed.

(** The service answers 429 with its error body. *)
Lemma refusal_becomes_a_price_witness :
  result_of (fetch_crypto_prices_over idle_world (replying_with 429 (JObj rate_limited))
               (fun f => f) map_to_list (JObj price_task) fresh)
  = Ret (list_to_map [("prices", JObj {[ "status" := no_price ]});
                      ("fetched_at", JStr "2024-01-01T00:00:00")]).
Proof.
  assert (Hall : map_Forall
            (fun _ v => exists info, v = JObj info /\ info !! "usd" = None
                                     /\ info !! "usd_24h_change" = None)
            rate_limited).
  { apply map_Forall_singleton. eexists. repeat split; vm_compute; reflexivity. }
  rewrite (refusal_becomes_a_price idle_world (replying_with 429 (JObj rate_limited))
             (fun f => f) map_to_list price_task rate_limited fresh
             {| status_code := 429; resp_json := inr (JObj rate_limited) |}
             eq_refl eq_refl eq_refl (Permutation_refl _) Hall).
  vm_compute. reflexivity.
Defined.

(** X16. One coin that cannot be priced fails the whole price task: when
    some value of the reply is not an object, or its 24-hour change is not
    a number, the handler raises after its single request and returns no
    table, not even for the coins that were fine. *)
Theorem one_bad_coin_fails_the_task (w : world) (net : internet)
    (round2 : float -> float) (items_of : gmap string json -> list (string * json))
    (m data : gmap string json) (s : state) (resp : response) (coin : string)
    (info : json) (e0 : exn) :
  httpx w = true ->
  net_get net (clock s) (prices_url (coins_of m)) = inr resp ->
  resp_json resp = inr (JObj data) ->
  items_of data ≡ₚ map_to_list data ->
  data !! coin = Some info ->
  price_entry round2 info = inl e0 ->
  exists e,
    fetch_crypto_prices_over w net round2 items_of (JObj m) s =
      (Raise e, later s, [EvGet (prices_url (coins_of m))]).
Proof.
  intros Hx Hget Hjson Hperm Hcoin Hbad.
  rewrite (fetch_crypto_prices_over_run w net round2 items_of m data s resp Hx Hget Hjson).
  destruct (first_failure
              (fun it : string * json =>
                 exists entry, price_entry round2 it.2 = inr entry)
              (items_of data))
    as [Hall | (good & [k v] & rest & Heq & Hgood & Hfail)].
  - intros [k v]. cbn [snd]. destruct (price_entry round2 v) as [e | entry];
      [right; intros [entry He]; discriminate | left; eauto].
  - exfalso. rewrite Forall_forall in Hall.
    destruct (Hall (coin, info)) as [entry He].
    + rewrite Hperm. apply elem_of_map_to_list. exact Hcoin.
    + cbn [snd] in He. congruence.
  - cbn [snd] in Hfail. destruct (price_entry round2 v) as [e | entry] eqn:He;
      [| destruct Hfail; eauto].
    exists e. rewrite Heq, (price_loop_fails round2 good k v rest e ∅ (later s) Hgood He).
    reflexivity.
Qed.

(** A reply in which one of two coins has no table of its own. *)
Lemma one_bad_coin_fails_the_task_witness :
  exists e,
    fetch_crypto_prices_over idle_world (replying (JObj one_bad_coin)) (fun f => f)
      map_to_list (JObj price_task) fresh =
      (Raise e, later fresh, [EvGet (prices_url (coins_of price_task))]).
Proof.
  assert (Hcoin : one_bad_coin !! "ethereum" = Some (JStr "n/a"))
    by (vm_compute; reflexivity).
  exact (one_bad_coin_fails_the_task idle_world (replying (JObj one_bad_coin))
           (fun f => f) map_to_list price_task one_bad_coin fresh
           (ok_json (JObj one_bad_coin)) "ethereum" (JStr "n/a")
           (AttributeError (JStr "n/a") "get")
           eq_refl eq_refl eq_refl (Permutation_refl _) Hcoin eq_refl).
Defined.

(** ** The news handler *)

Lemma story_wanted_not_dict sl sc kw ms v :
  (forall m, v <> JObj m) -> story_wanted sl sc kw ms v <> inr true.
Proof.
  intros Hv. unfold story_wanted. destruct (truthy v); cbn [negb]; [| discriminate].
  destruct v; try discriminate. destruct (Hv m). reflexivity.
Qed.

(** One item: one request, and the stories grow by what the answer adds;
    no exception leaves the body of the loop. *)
Lemma visit_story_run net sl sc kw ms sid stories s :
  visit_story net sl sc kw ms sid stories s =
    (Ret (stories ++ story_pick sl sc kw ms (net_get net (clock s) (item_url sid))),
     later s, [EvGet (item_url sid)]).
Proof.
  unfold visit_story, story_pick.
  cbv beta iota zeta delta [try_except bind upstream_get tick emit lift].
  cbn [app]. fold (later s).
  destruct (net_get net (clock s) (item_url sid)) as [e | sr];
    cbv beta iota zeta delta [raise ret]; [rewrite ?app_nil_r; reflexivity |].
  destruct (resp_json sr) as [e | story]; [rewrite ?app_nil_r; reflexivity |].
  destruct (story_wanted sl sc kw ms story) as [e | [|]] eqn:Hw;
    cbv beta iota zeta delta [raise ret].
  - destruct story; rewrite ?Hw, ?app_nil_r; reflexivity.
  - destruct story as [| | | | | | m]; rewrite ?Hw; try reflexivity;
      exfalso; refine (story_wanted_not_dict sl sc kw ms _ _ Hw); discriminate.
  - destruct story; rewrite ?Hw, ?app_nil_r; reflexivity.
Qed.

Lemma scan_run net sl sc kw ms ids acc s :
  for_fold (visit_story net sl sc kw ms) ids acc s =
    (Ret (acc ++ picks_from net sl sc kw ms (clock s) ids),
     after (length ids) s,
     EvGet <$> (item_url <$> ids)).
Proof.
  revert acc s. induction ids as [| sid ids IH]; intros acc s.
  - cbn. rewrite app_nil_r. destruct s. reflexivity.
  - cbn [for_fold picks_from length]. unfold bind. rewrite visit_story_run, IH.
    cbn [later clock]. rewrite <- app_assoc. unfold after. cbn [later self clock fmap].
    rewrite Nat.add_succ_r. reflexivity.
Qed.

(** The run of [fetch_hackernews] once the list of top stories is in. *)
Lemma fetch_hackernews_over_run w net sl sc se (m : gmap string json) s resp top ids :
  httpx w = true ->
  net_get net (clock s) topstories_url = inr resp ->
  resp_json resp = inr top ->
  py_head sc se 50 top = inr ids ->
  fetch_hackernews_over w net sl sc se (JObj m) s =
    (Ret (list_to_map
            [("stories",
              JArr (picks_from net sl sc (keywords_of m) 200 (S (clock s)) (take 30 ids)));
             ("fetched_at",
              JStr (utcnow_isoformat w (length (take 30 ids) + S (clock s))))]),
     after (length (take 30 ids)) (later s),
     EvGet topstories_url
       :: (EvGet <$> (item_url <$> take 30 ids))
       ++ [EvLog INFO "HN: found %d matching stories"
             [ArgInt (Z.of_nat (length (picks_from net sl sc (keywords_of m) 200
                                          (S (clock s)) (take 30 ids))))]]).
Proof.
  intros Hx Hget Hjson Hhead. unfold fetch_hackernews_over. rewrite Hx.
  change (negb true) with false.
  cbv beta iota zeta delta [bind lift py_get ret upstream_get tick emit get_state log].
  cbn [app]. fold (keywords_of m) (later s). rewrite Hget.
  cbv beta iota zeta delta [ret]. rewrite Hjson, Hhead.
  rewrite scan_run. cbn [app later clock]. reflexivity.
Qed.



(** How [fetch_hackernews] can go, with [httpx] installed: it raises
    before or right after its first request, or the list of top stories
    is in. *)
Lemma fetch_hackernews_over_cases w net sl sc se task s :
  httpx w = true ->
  (exists e s' t,
     fetch_hackernews_over w net sl sc se task s = (Raise e, s', t)
     /\ (t = [] \/ t = [EvGet topstories_url]))
  \/ (exists m resp top ids,
        task = JObj m /\ net_get net (clock s) topstories_url = inr resp
        /\ resp_json resp = inr top /\ py_head sc se 50 top = inr ids).
Proof.
  intros Hx.
  destruct task as [| | | | | | m];
    try (left; unfold fetch_hackernews_over; rewrite Hx; do 3 eexists;
         split; [reflexivity | left; reflexivity]).
  destruct (net_get net (clock s) topstories_url) as [e | resp] eqn:Hget.
  { left. unfold fetch_hackernews_over. rewrite Hx. change (negb true) with false.
    cbv beta iota zeta delta [bind lift py_get ret upstream_get tick emit].
    cbn [app]. rewrite Hget. do 3 eexists. split; [reflexivity | right; reflexivity]. }
  destruct (resp_json resp) as [e | top] eqn:Hjson.
  { left. unfold fetch_hackernews_over. rewrite Hx. change (negb true) with false.
    cbv beta iota zeta delta [bind lift py_get ret upstream_get tick emit].
    cbn [app]. rewrite Hget. cbv beta iota zeta delta [ret]. rewrite Hjson.
    do 3 eexists. split; [reflexivity | right; reflexivity]. }
  destruct (py_head sc se 50 top) as [e | ids] eqn:Hhead.
  { left. unfold fetch_hackernews_over. rewrite Hx. change (negb true) with false.
    cbv beta iota zeta delta [bind lift py_get ret upstream_get tick emit].
    cbn [app]. rewrite Hget. cbv beta iota zeta delta [ret]. rewrite Hjson, Hhead.
    do 3 eexists. split; [reflexivity | right; reflexivity]. }
  right. exists m, resp, top, ids. repeat split; assumption.
Qed.

(** X17. The stories are picked item by item.  When the top stories come
    as a JSON list, the handler requests the first 30 of them one after
    the other and, whatever each answer is, goes on to the next: an item
    whose request fails, whose answer is not a JSON object or fails a test
    adds nothing, any other adds its record, in the order of the feed.
    The handler then logs the number of stories kept and returns them; it
    does not raise. *)
Theorem stories_are_picked_item_by_item (w : world) (net : internet)
    (str_lower : string -> string) (str_chars : string -> list string)
    (slice_error : json -> exn) (m : gmap string json) (s : state)
    (resp : response) (ids : list json) :
  httpx w = true ->
  net_get net (clock s) topstories_url = inr resp ->
  resp_json resp = inr (JArr ids) ->
  fetch_hackernews_over w net str_lower str_chars slice_error (JObj m) s =
    (Ret (list_to_map
            [("stories",
              JArr (picks_from net str_lower str_chars (keywords_of m) 200
                      (S (clock s)) (take 30 ids)));
             ("fetched_at",
              JStr (utcnow_isoformat w (length (take 30 ids) + S (clock s))))]),
     after (length (take 30 ids)) (later s),
     EvGet topstories_url
       :: (EvGet <$> (item_url <$> take 30 ids))
       ++ [EvLog INFO "HN: found %d matching stories"
             [ArgInt (Z.of_nat (length (picks_from net str_lower str_chars
                                          (keywords_of m) 200 (S (clock s))
                                          (take 30 ids))))]]).
Proof.
  intros Hx Hget Hjson.
  rewrite (fetch_hackernews_over_run w net str_lower str_chars slice_error m s resp
             (JArr ids) (take 50 ids) Hx Hget Hjson eq_refl).
  rewrite take_take. change (30 `min` 50) with 30. reflexivity.
Qed.

(** Four stories: one kept, one off topic, one below the threshold, one
    whose request times out. *)
Lemma stories_are_picked_item_by_item_witness :
  result_of (fetch_hackernews_over idle_world news_feed ascii_lower ascii_chars
               not_subscriptable (JObj news_task) fresh)
  = Ret (list_to_map
           [("stories",
             JArr [JObj (list_to_map [("title", JStr "ai for all"); ("score", JInt 250);
                                      ("url", JStr "https://example.org");
                                      ("comments", JInt 7)])]);
            ("fetched_at", JStr "2024-01-01T00:00:00")]).
Proof.
  rewrite (stories_are_picked_item_by_item idle_world news_feed ascii_lower ascii_chars
             not_subscriptable news_task fresh
             (ok_json (JArr [JInt 1; JInt 2; JInt 3; JInt 4]))
             [JInt 1; JInt 2; JInt 3; JInt 4] eq_refl eq_refl eq_refl).
  vm_compute. reflexivity.
Defined.


Lemma story_wanted_score sl sc kw ms (m : gmap string json) :
  story_wanted sl sc kw ms (JObj m) = inr true ->
  py_ge (default (JInt 0) (m !! "score")) ms = inr true.
Proof.
  unfold story_wanted. destruct (truthy (JObj m)); cbn [negb]; [| discriminate].
  cbn [py_get]. destruct (py_ge (default (JInt 0) (m !! "score")) ms) as [e | [|]];
    try discriminate. reflexivity.
Qed.

Lemma story_entry_score (m : gmap string json) :
  story_entry m !! "score" = Some (default JNull (m !! "score")).
Proof.
  unfold story_entry. cbn [list_to_map foldr uncurry fst snd].
  rewrite lookup_insert_ne by discriminate. apply lookup_insert_eq.
Qed.

Lemma story_pick_scored sl sc kw ms answer :
  (0 < ms)%Z -> Forall (scored_at_least ms) (story_pick sl sc kw ms answer).
Proof.
  intros Hms. unfold story_pick. destruct answer as [e | sr]; [constructor |].
  destruct (resp_json sr) as [e | [| | | | | | m]]; try constructor.
  destruct (story_wanted sl sc kw ms (JObj m)) as [e | [|]] eqn:Hw; try constructor;
    [| constructor].
  apply story_wanted_score in Hw.
  destruct (m !! "score") as [score |] eqn:Hscore.
  - exists (story_entry m), score. rewrite story_entry_score, Hscore. auto.
  - cbn in Hw. injection Hw as Hw. apply Z.geb_le in Hw. lia.
Qed.

Lemma story_pick_length sl sc kw ms answer : length (story_pick sl sc kw ms answer) <= 1.
Proof.
  unfold story_pick. destruct answer as [e | sr]; [cbn; lia |].
  destruct (resp_json sr) as [e | [| | | | | | m]]; try (cbn; lia).
  destruct (story_wanted sl sc kw ms (JObj m)) as [e | [|]]; cbn; lia.
Qed.

Lemma picks_from_scored net sl sc kw ms c ids :
  (0 < ms)%Z -> Forall (scored_at_least ms) (picks_from net sl sc kw ms c ids).
Proof.
  intros Hms. revert c. induction ids as [| sid ids IH]; intros c; [constructor |].
  cbn [picks_from]. apply Forall_app. split; [apply story_pick_scored; exact Hms | apply IH].
Qed.

Lemma picks_from_length net sl sc kw ms c ids :
  length (picks_from net sl sc kw ms c ids) <= length ids.
Proof.
  revert c. induction ids as [| sid ids IH]; intros c; [reflexivity |].
  cbn [picks_from length]. rewrite length_app.
  pose proof (story_pick_length sl sc kw ms (net_get net c (item_url sid))).
  specialize (IH (S c)). lia.
Qed.

(** X19. Whatever the service answers, a result of the news handler holds
    at most 30 stories, and each of them is a record whose score is a
    number that reaches the threshold of 200; a story without a score is
    never kept. *)
Theorem kept_stories_reach_the_threshold (w : world) (net : internet)
    (str_lower : string -> string) (str_chars : string -> list string)
    (slice_error : json -> exn) (task : json) (s : state)
    (result : gmap string json) :
  httpx w = true ->
  result_of (fetch_hackernews_over w net str_lower str_chars slice_error task s)
  = Ret result ->
  exists stories,
    result !! "stories" = Some (JArr stories)
    /\ length stories <= 30
    /\ Forall (scored_at_least 200) stories.
Proof.
  intros Hx Hret.
  destruct (fetch_hackernews_over_cases w net str_lower str_chars slice_error task s Hx)
    as [(e & s' & t & Hrun & _)
       | (m & resp & top & ids & -> & Hget & Hjson & Hhead)].
  - rewrite Hrun in Hret. discriminate.
  - rewrite (fetch_hackernews_over_run w net str_lower str_chars slice_error m s resp
               top ids Hx Hget Hjson Hhead) in Hret.
    unfold result_of in Hret. cbn [fst] in Hret. injection Hret as <-.
    eexists. split; [| split].
    + cbn [list_to_map foldr uncurry fst snd]. apply lookup_insert_eq.
    + etransitivity; [apply picks_from_length |]. rewrite length_take. lia.
    + apply picks_from_scored. lia.
Qed.

(** The feed of four stories: the one story kept has a score of 250. *)
Lemma kept_stories_reach_the_threshold_witness :
  exists stories,
    (list_to_map
       [("stories",
         JArr [JObj (list_to_map [("title", JStr "ai for all"); ("score", JInt 250);
                                  ("url", JStr "https://example.org");
                                  ("comments", JInt 7)])]);
        ("fetched_at", JStr "2024-01-01T00:00:00")] : gmap string json)
    !! "stories" = Some (JArr stories)
    /\ length stories <= 30
    /\ Forall (scored_at_least 200) stories.
Proof.
  apply (kept_stories_reach_the_threshold idle_world news_feed ascii_lower ascii_chars
           not_subscriptable (JObj news_task) fresh).
  - reflexivity.
  - vm_compute. reflexivity.
Defined.

Lemma any_keyword_strings sl (ks : list string) title :
  any_keyword sl (JStr <$> ks) title
  = inr (existsb (fun k => contains (sl k) title) ks).
Proof.
  induction ks as [| k ks IH]; [reflexivity |].
  cbn [fmap list_fmap any_keyword py_lower existsb].
  destruct (contains (sl k) title); [reflexivity | exact IH].
Qed.

(** X20. The keyword test is a case-folded substring test.  For a story
    that reaches the threshold and has a string title, a list of string
    keywords keeps the story exactly when the lower-cased form of one of
    them occurs in the lower-cased title; an empty list keeps every such
    story. *)
Theorem keyword_test_is_substring_test (str_lower : string -> string)
    (str_chars : string -> list string) (min_score : Z) (m : gmap string json)
    (title : string) (keywords : list string) :
  m !! "title" = Some (JStr title) ->
  py_ge (default (JInt 0) (m !! "score")) min_score = inr true ->
  story_wanted str_lower str_chars (JArr (JStr <$> keywords)) min_score (JObj m)
  = inr (match keywords with
         | [] => true
         | _ :: _ =>
             existsb (fun k => contains (str_lower k) (str_lower title)) keywords
         end).
Proof.
  intros Htitle Hscore. unfold story_wanted.
  assert (Hm : truthy (JObj m) = true).
  { cbn [truthy]. rewrite bool_decide_eq_false_2; [reflexivity |].
    intros ->. rewrite lookup_empty in Htitle. discriminate. }
  rewrite Hm. cbn [negb py_get]. rewrite Hscore, Htitle.
  cbn [default from_option id py_lower].
  destruct keywords as [| k ks]; [reflexivity |].
  cbn [fmap list_fmap truthy negb keyword_items].
  exact (any_keyword_strings str_lower (k :: ks) (str_lower title)).
Qed.

(** A story about Rust with the keywords ["AI"] and ["rust"]. *)
Lemma keyword_test_is_substring_test_witness :
  story_wanted ascii_lower ascii_chars (JArr (JStr <$> ["AI"; "RUST"])) 200
    (story "Rewriting it in Rust" 300)
  = inr true.
Proof.
  assert (Htitle : (list_to_map [("title", JStr "Rewriting it in Rust");
                                 ("score", JInt 300);
                                 ("url", JStr "https://example.org");
                                 ("descendants", JInt 7)] : gmap string json)
                   !! "title" = Some (JStr "Rewriting it in Rust"))
    by (vm_compute; reflexivity).
  unfold story.
  rewrite (keyword_test_is_substring_test ascii_lower ascii_chars 200 _
             "Rewriting it in Rust" ["AI"; "RUST"] Htitle)
    by (vm_compute; reflexivity).
  vm_compute. reflexivity.
Defined.

Lemma story_pick_no_keywords sl sc kw ms e0 answer :
  truthy kw = true -> keyword_items sc kw = inl e0 ->
  story_pick sl sc kw ms answer = [].
Proof.
  intros Hkw Hitems. unfold story_pick. destruct answer as [e | sr]; [reflexivity |].
  destruct (resp_json sr) as [e | [| | | | | | m]]; try reflexivity.
  unfold story_wanted. destruct (truthy (JObj m)); cbn [negb]; [| reflexivity].
  cbn [py_get]. destruct (py_ge (default (JInt 0) (m !! "score")) ms) as [e | [|]];
    try reflexivity.
  destruct (py_lower sl (default (JStr "") (m !! "title"))) as [e | title];
    [reflexivity |].
  rewrite Hkw, Hitems. reflexivity.
Qed.

Lemma picks_from_no_keywords net sl sc kw ms e0 c ids :
  truthy kw = true -> keyword_items sc kw = inl e0 ->
  picks_from net sl sc kw ms c ids = [].
Proof.
  intros Hkw Hitems. revert c. induction ids as [| sid ids IH]; intros c; [reflexivity |].
  cbn [picks_from]. rewrite (story_pick_no_keywords sl sc kw ms e0 _ Hkw Hitems), IH.
  reflexivity.
Qed.

(** X21. Keywords that cannot be iterated silence the handler.  When the
    task's ["keywords"] is a truthy value that is no list, string or
    object (a number, [true]), the handler still requests every item, but
    the exception of the keyword test is swallowed for each of them: it
    returns an empty list of stories and logs that it found none. *)
Theorem bad_keywords_find_nothing (w : world) (net : internet)
    (str_lower : string -> string) (str_chars : string -> list string)
    (slice_error : json -> exn) (m : gmap string json) (s : state)
    (resp : response) (ids : list json) (keywords : json) (e0 : exn) :
  httpx w = true ->
  net_get net (clock s) topstories_url = inr resp ->
  resp_json resp = inr (JArr ids) ->
  m !! "keywords" = Some keywords ->
  truthy keywords = true ->
  keyword_items str_chars keywords = inl e0 ->
  fetch_hackernews_over w net str_lower str_chars slice_error (JObj m) s =
    (Ret (list_to_map
            [("stories", JArr []);
             ("fetched_at",
              JStr (utcnow_isoformat w (length (take 30 ids) + S (clock s))))]),
     after (length (take 30 ids)) (later s),
     EvGet topstories_url
       :: (EvGet <$> (item_url <$> take 30 ids))
       ++ [EvLog INFO "HN: found %d matching stories" [ArgInt 0]]).
Proof.
  intros Hx Hget Hjson Hm Hkw Hitems.
  rewrite (fetch_hackernews_over_run w net str_lower str_chars slice_error m s resp
             (JArr ids) (take 50 ids) Hx Hget Hjson eq_refl).
  rewrite take_take. change (30 `min` 50) with 30.
  assert (Hk : keywords_of m = keywords).
  { unfold keywords_of. rewrite Hm. reflexivity. }
  rewrite Hk, (picks_from_no_keywords net str_lower str_chars keywords 200 e0 _ _
                 Hkw Hitems).
  reflexivity.
Qed.

(** The feed of four stories, asked for with the keywords [5]. *)
Lemma bad_keywords_find_nothing_witness :
  result_of (fetch_hackernews_over idle_world news_feed ascii_lower ascii_chars
               not_subscriptable (JObj numeric_keywords_task) fresh)
  = Ret (list_to_map [("stories", JArr []);
                      ("fetched_at", JStr "2024-01-01T00:00:00")]).
Proof.
  assert (Hm : numeric_keywords_task !! "keywords" = Some (JInt 5))
    by (vm_compute; reflexivity).
  rewrite (bad_keywords_find_nothing idle_world news_feed ascii_lower ascii_chars
             not_subscriptable numeric_keywords_task fresh
             (ok_json (JArr [JInt 1; JInt 2; JInt 3; JInt 4]))
             [JInt 1; JInt 2; JInt 3; JInt 4] (JInt 5)
             (TypeError_not_iterable (JInt 5))
             eq_refl eq_refl eq_refl Hm eq_refl eq_refl).
  reflexivity.
Defined.
